(** * pageless: the Slack tool server [src/pageless/slack_server.py]

    A shallow embedding of the Slack client ([SlackClient]), of the eight
    tools registered on the server and of the start-up check, with the
    properties the specification states about them.

    Python values are modelled as follows.
    - [str] is a list of Unicode code points ([pystr]).
    - [int] is [Z].
    - [Optional[str]] is [option pystr].
    - The value decoded from a response body (what [response.json()]
      returns) is a [json] tree whose objects are insertion-ordered
      dictionaries.  Numbers are integers: floating point is outside the
      model.
    - Converting an integer to text and back is limited to 4300 digits, as in
      CPython: [str], [json.dumps] and the decoder raise beyond that.
    - The network is a function from the requests sent so far and the current
      request to a reply; a reply is a decoded body or a raised exception. *)

From Stdlib Require Import ZArith NArith List String Ascii Bool Lia.
From Stdlib Require Import DecimalFacts DecimalPos DecimalN DecimalZ.
Import ListNotations.

Set Implicit Arguments.
Set Warnings "-register-all".

(** ** Python strings *)

Module PyStr.

(** A Python [str]: its code points, in order. *)
Definition pystr := list N.

(** A literal of the source, as the code points of its (ASCII) characters. *)
Definition py (s : string) : pystr :=
  List.map N_of_ascii (list_ascii_of_string s).

Definition eqb (a b : pystr) : bool :=
  if list_eq_dec N.eq_dec a b then true else false.

Lemma eqb_eq a b : eqb a b = true <-> a = b.
Proof.
  unfold eqb. destruct (list_eq_dec N.eq_dec a b); split; congruence.
Qed.

Lemma eqb_refl a : eqb a a = true.
Proof. now apply eqb_eq. Qed.

Lemma eqb_neq a b : eqb a b = false <-> a <> b.
Proof.
  unfold eqb. destruct (list_eq_dec N.eq_dec a b); split; congruence.
Qed.

(** Truth value of a string: [not s] holds exactly for the empty string. *)
Definition truthy (s : pystr) : bool :=
  match s with [] => false | _ :: _ => true end.

(** Truth value of an [Optional[str]]: [None] and the empty string are
    false. *)
Definition truthy_opt (o : option pystr) : bool :=
  match o with None => false | Some s => truthy s end.

(** The double quote character. *)
Definition dquote : pystr := [34%N].

(** [s] between double quotes. *)
Definition quoted (s : pystr) : pystr := dquote ++ s ++ dquote.

(** [sep.join(parts)]. *)
Fixpoint join (sep : pystr) (parts : list pystr) : pystr :=
  match parts with
  | [] => []
  | [p] => p
  | p :: ps => p ++ sep ++ join sep ps
  end.

End PyStr.
Import PyStr.

(** ** Exceptions and results *)

(** An instance of [Exception]: its class and the text [str(e)] gives. *)
Record exn := Exn { exn_class : pystr; exn_message : pystr }.

(** [str(e)]. *)
Definition str_exn (e : exn) : pystr := exn_message e.

Definition ValueError (msg : pystr) : exn := Exn (py "ValueError") msg.
Definition TypeError (msg : pystr) : exn := Exn (py "TypeError") msg.

(** What evaluating an expression comes to: a value, or a raised
    exception. *)
Inductive result (A : Type) : Type :=
| Ok (a : A)
| Raise (e : exn).
Arguments Ok {A} a.
Arguments Raise {A} e.

(** ** Python integers as text: [str(n)] *)

Module PyInt.

Fixpoint uint_chars (d : Decimal.uint) : pystr :=
  match d with
  | Decimal.Nil => []
  | Decimal.D0 d => 48%N :: uint_chars d
  | Decimal.D1 d => 49%N :: uint_chars d
  | Decimal.D2 d => 50%N :: uint_chars d
  | Decimal.D3 d => 51%N :: uint_chars d
  | Decimal.D4 d => 52%N :: uint_chars d
  | Decimal.D5 d => 53%N :: uint_chars d
  | Decimal.D6 d => 54%N :: uint_chars d
  | Decimal.D7 d => 55%N :: uint_chars d
  | Decimal.D8 d => 56%N :: uint_chars d
  | Decimal.D9 d => 57%N :: uint_chars d
  end.

(** The decimal text of an integer: its digits, [-] in front of a negative
    number. *)
Definition decimal (z : Z) : pystr :=
  match Z.to_int z with
  | Decimal.Pos d => uint_chars d
  | Decimal.Neg d => 45%N :: uint_chars d
  end.

(** The number of decimal digits of an integer, the sign not counted. *)
Definition digits (z : Z) : nat :=
  match Z.to_int z with
  | Decimal.Pos d => Decimal.nb_digits d
  | Decimal.Neg d => Decimal.nb_digits d
  end.

(** [sys.get_int_max_str_digits()], at its default. *)
Definition max_str_digits : nat := 4300.

(** The integer can be converted to text, and text of that many digits to an
    integer: CPython refuses both beyond [max_str_digits] digits. *)
Definition fits (z : Z) : bool := Nat.leb (digits z) max_str_digits.

(** What [str(z)] and [repr(z)] raise for an integer of more digits (the
    wording is that of CPython 3.12). *)
Definition too_many_digits : exn :=
  ValueError
    (py "Exceeds the limit (4300 digits) for integer string conversion; use sys.set_int_max_str_digits() to increase the limit").

(** [str(z)] for an [int]. *)
Definition str (z : Z) : result pystr :=
  if fits z then Ok (decimal z) else Raise too_many_digits.

(** [min(a, b)] on integers. *)
Definition min (a b : Z) : Z := if (b <? a)%Z then b else a.

Definition is_digit (c : N) : bool := ((48 <=? c) && (c <=? 57))%N.

(** The digit a character stands for, put in front of [d]. *)
Definition push_digit (c : N) (d : Decimal.uint) : Decimal.uint :=
  match c with
  | 48 => Decimal.D0 d | 49 => Decimal.D1 d | 50 => Decimal.D2 d
  | 51 => Decimal.D3 d | 52 => Decimal.D4 d | 53 => Decimal.D5 d
  | 54 => Decimal.D6 d | 55 => Decimal.D7 d | 56 => Decimal.D8 d
  | _ => Decimal.D9 d
  end%N.

(** The longest run of digits at the front of [s], and what follows it. *)
Fixpoint span_digits (s : pystr) : Decimal.uint * pystr :=
  match s with
  | c :: r =>
      if is_digit c
      then let (d, rest) := span_digits r in (push_digit c d, rest)
      else (Decimal.Nil, s)
  | [] => (Decimal.Nil, [])
  end.

End PyInt.

(** ** Decoded JSON values *)

(** What [response.json()] returns and what [json.dumps] takes.  A [dict]
    keeps its keys in insertion order, so it is an association list; its keys
    are distinct (see [Json.wf]). *)
Inductive json : Type :=
| JNull
| JBool (b : bool)
| JInt (z : Z)
| JStr (s : pystr)
| JArr (items : list json)
| JObj (members : list (pystr * json)).

Module Json.

Open Scope N_scope.

(** *** [json.dumps] with its default options

    [ensure_ascii=True]: every character outside the printable ASCII range is
    written as a [\uXXXX] escape (a surrogate pair above the basic plane);
    separators are [", "] and [": "]. *)

Definition hex_digit (n : N) : N :=
  if n <? 10 then 48 + n else 87 + n.

Definition hex4 (n : N) : pystr :=
  [ hex_digit (N.shiftr n 12 mod 16); hex_digit (N.shiftr n 8 mod 16);
    hex_digit (N.shiftr n 4 mod 16); hex_digit (n mod 16) ].

Definition u_escape (n : N) : pystr := [92; 117] ++ hex4 n.

Definition escape_char (c : N) : pystr :=
  if c =? 34 then [92; 34]
  else if c =? 92 then [92; 92]
  else if c =? 10 then [92; 110]
  else if c =? 13 then [92; 114]
  else if c =? 9 then [92; 116]
  else if c =? 8 then [92; 98]
  else if c =? 12 then [92; 102]
  else if (32 <=? c) && (c <=? 126) then [c]
  else if c <? 0x10000 then u_escape c
  else
    let v := c - 0x10000 in
    u_escape (N.lor 0xd800 (N.land (N.shiftr v 10) 0x3ff))
    ++ u_escape (N.lor 0xdc00 (N.land v 0x3ff)).

Definition encode_string (s : pystr) : pystr :=
  quoted (flat_map escape_char s).

Fixpoint dumps (v : json) : pystr :=
  match v with
  | JNull => py "null"
  | JBool true => py "true"
  | JBool false => py "false"
  | JInt z => PyInt.decimal z
  | JStr s => encode_string s
  | JArr items =>
      py "[" ++ join (py ", ") (List.map dumps items) ++ py "]"
  | JObj members =>
      py "{"
      ++ join (py ", ")
           (List.map (fun kv => encode_string (fst kv) ++ py ": " ++ dumps (snd kv))
                     members)
      ++ py "}"
  end.

(** Every integer of the value can be written out: see [PyInt.fits]. *)
Fixpoint ints_fit (v : json) : bool :=
  match v with
  | JNull | JBool _ | JStr _ => true
  | JInt z => PyInt.fits z
  | JArr items => forallb ints_fit items
  | JObj members => forallb (fun kv => ints_fit (snd kv)) members
  end.

(** [json.dumps(v)]: the text [dumps v], unless an integer of [v] has too many
    digits for [int.__repr__]. *)
Definition json_dumps (v : json) : result pystr :=
  if ints_fit v then Ok (dumps v) else Raise PyInt.too_many_digits.

(** *** [json.loads]

    The decoder of the [json] module (strict mode), on texts whose numbers
    are integers.  It answers [None] where the text is not JSON, where a
    number has a fraction or an exponent, and where an integer has more
    digits than [int] accepts. *)

Definition is_ws (c : N) : bool :=
  (c =? 32) || (c =? 9) || (c =? 10) || (c =? 13).

Fixpoint skip_ws (s : pystr) : pystr :=
  match s with
  | c :: r => if is_ws c then skip_ws r else s
  | [] => []
  end.

Definition hex_value (c : N) : option N :=
  if (48 <=? c) && (c <=? 57) then Some (c - 48)
  else if (97 <=? c) && (c <=? 102) then Some (c - 87)
  else if (65 <=? c) && (c <=? 70) then Some (c - 55)
  else None.

Definition hex4_value (a b c d : N) : option N :=
  match hex_value a, hex_value b, hex_value c, hex_value d with
  | Some x, Some y, Some z, Some w => Some (((x * 16 + y) * 16 + z) * 16 + w)
  | _, _, _, _ => None
  end.

Definition is_high (c : N) : bool := (0xd800 <=? c) && (c <=? 0xdbff).
Definition is_low (c : N) : bool := (0xdc00 <=? c) && (c <=? 0xdfff).

(** The code point a surrogate pair stands for. *)
Definition join_surrogates (hi lo : N) : N :=
  0x10000 + N.lor (N.shiftl (hi - 0xd800) 10) (lo - 0xdc00).

(** The character a one-letter escape stands for. *)
Definition backslash (e : N) : option N :=
  if e =? 34 then Some 34
  else if e =? 92 then Some 92
  else if e =? 47 then Some 47
  else if e =? 98 then Some 8
  else if e =? 102 then Some 12
  else if e =? 110 then Some 10
  else if e =? 114 then Some 13
  else if e =? 116 then Some 9
  else None.

Definition cons_char (c : N) (r : option (pystr * pystr))
  : option (pystr * pystr) :=
  match r with
  | Some (str, rest) => Some (c :: str, rest)
  | None => None
  end.

(** The low surrogate a [\uXXXX] escape at the front of [s] stands for, if
    there is one. *)
Definition low_surrogate_ahead (s : pystr) : option N :=
  match s with
  | b :: s1 =>
      if b =? 92 then
        match s1 with
        | u :: s2 =>
            if u =? 117 then
              match s2 with
              | e :: f :: g :: h :: _ =>
                  match hex4_value e f g h with
                  | Some uni2 => if is_low uni2 then Some uni2 else None
                  | None => None
                  end
              | _ => None
              end
            else None
        | [] => None
        end
      else None
  | [] => None
  end.

(** [scanstring]: the text after an opening quote, up to the closing one.
    A high surrogate escape directly followed by a low surrogate escape is one
    character; control characters must be escaped. *)
Fixpoint scanstring (s : pystr) : option (pystr * pystr) :=
  match s with
  | [] => None
  | c :: r =>
      if c =? 34 then Some ([], r)
      else if c =? 92 then
        match r with
        | [] => None
        | e :: r1 =>
            if e =? 117 then
              match r1 with
              | a :: b :: c' :: d :: r2 =>
                  match hex4_value a b c' d with
                  | None => None
                  | Some uni =>
                      match
                        (if is_high uni then low_surrogate_ahead r2 else None),
                        r2
                      with
                      | Some uni2, _ :: _ :: _ :: _ :: _ :: _ :: r3 =>
                          cons_char (join_surrogates uni uni2) (scanstring r3)
                      | _, _ => cons_char uni (scanstring r2)
                      end
                  end
              | _ => None
              end
            else
              match backslash e with
              | Some x => cons_char x (scanstring r1)
              | None => None
              end
        end
      else if c <? 32 then None
      else cons_char c (scanstring r)
  end.

(** The integer part of a number: [0], or a digit run that does not start
    with [0]. *)
Definition parse_uint (s : pystr) : option (Decimal.uint * pystr) :=
  match s with
  | c :: r =>
      if c =? 48 then Some (Decimal.D0 Decimal.Nil, r)
      else if PyInt.is_digit c then Some (PyInt.span_digits s)
      else None
  | [] => None
  end.

(** No fraction and no exponent follows. *)
Definition ends_number (rest : pystr) : bool :=
  match rest with
  | c :: _ => negb ((c =? 46) || (c =? 101) || (c =? 69))
  | [] => true
  end.

(** [int(text)] accepts the digits [d]. *)
Definition digits_fit (d : Decimal.uint) : bool :=
  Nat.leb (Decimal.nb_digits d) PyInt.max_str_digits.

Definition parse_int (s : pystr) : option (Z * pystr) :=
  match s with
  | c :: r =>
      if c =? 45 then
        match parse_uint r with
        | Some (d, rest) =>
            if ends_number rest && digits_fit d
            then Some (Z.of_int (Decimal.Neg d), rest)
            else None
        | None => None
        end
      else
        match parse_uint s with
        | Some (d, rest) =>
            if ends_number rest && digits_fit d
            then Some (Z.of_int (Decimal.Pos d), rest)
            else None
        | None => None
        end
  | [] => None
  end.

(** [s] starts with the literal [lit]: what follows it. *)
Fixpoint expect (lit s : pystr) : option pystr :=
  match lit with
  | [] => Some s
  | l :: lit' =>
      match s with
      | c :: r => if c =? l then expect lit' r else None
      | [] => None
      end
  end.

(** [d[k] = v] on an insertion-ordered dictionary. *)
Fixpoint dict_set {V : Type} (d : list (pystr * V)) (k : pystr) (v : V)
  : list (pystr * V) :=
  match d with
  | [] => [(k, v)]
  | (k', v') :: d' =>
      if PyStr.eqb k k' then (k', v) :: d' else (k', v') :: dict_set d' k v
  end.

(** [d.get(k)]. *)
Fixpoint dict_get {V : Type} (d : list (pystr * V)) (k : pystr) : option V :=
  match d with
  | [] => None
  | (k', v') :: d' => if PyStr.eqb k k' then Some v' else dict_get d' k
  end.

(** [dict(pairs)]: a later pair replaces the value of an earlier equal key. *)
Definition dict_of_pairs {V : Type} (pairs : list (pystr * V))
  : list (pystr * V) :=
  fold_left (fun d kv => dict_set d (fst kv) (snd kv)) pairs [].

Fixpoint parse_value (fuel : nat) (s : pystr) : option (json * pystr) :=
  match fuel with
  | O => None
  | S fuel =>
      match skip_ws s with
      | [] => None
      | c :: r =>
          if c =? 34 then
            match scanstring r with
            | Some (str, rest) => Some (JStr str, rest)
            | None => None
            end
          else if c =? 91 then
            match skip_ws r with
            | c2 :: r2 =>
                if c2 =? 93 then Some (JArr [], r2)
                else
                  match parse_items fuel r with
                  | Some (items, rest) => Some (JArr items, rest)
                  | None => None
                  end
            | [] => None
            end
          else if c =? 123 then
            match skip_ws r with
            | c2 :: r2 =>
                if c2 =? 125 then Some (JObj [], r2)
                else
                  match parse_members fuel r with
                  | Some (pairs, rest) => Some (JObj (dict_of_pairs pairs), rest)
                  | None => None
                  end
            | [] => None
            end
          else if c =? 110 then
            option_map (pair JNull) (expect (py "ull") r)
          else if c =? 116 then
            option_map (pair (JBool true)) (expect (py "rue") r)
          else if c =? 102 then
            option_map (pair (JBool false)) (expect (py "alse") r)
          else
            match parse_int (c :: r) with
            | Some (z, rest) => Some (JInt z, rest)
            | None => None
            end
      end
  end
with parse_items (fuel : nat) (s : pystr) : option (list json * pystr) :=
  match fuel with
  | O => None
  | S fuel =>
      match parse_value fuel s with
      | None => None
      | Some (v, rest) =>
          match skip_ws rest with
          | c :: r =>
              if c =? 44 then
                match parse_items fuel r with
                | Some (vs, rest') => Some (v :: vs, rest')
                | None => None
                end
              else if c =? 93 then Some ([v], r)
              else None
          | [] => None
          end
      end
  end
with parse_members (fuel : nat) (s : pystr)
  : option (list (pystr * json) * pystr) :=
  match fuel with
  | O => None
  | S fuel =>
      match skip_ws s with
      | q :: r0 =>
          if q =? 34 then
            match scanstring r0 with
            | None => None
            | Some (key, r1) =>
                match skip_ws r1 with
                | colon :: r2 =>
                    if colon =? 58 then
                      match parse_value fuel r2 with
                      | None => None
                      | Some (v, rest) =>
                          match skip_ws rest with
                          | c :: r =>
                              if c =? 44 then
                                match parse_members fuel r with
                                | Some (kvs, rest') =>
                                    Some ((key, v) :: kvs, rest')
                                | None => None
                                end
                              else if c =? 125 then Some ([(key, v)], r)
                              else None
                          | [] => None
                          end
                      end
                    else None
                | [] => None
                end
            end
          else None
      | [] => None
      end
  end.

(** [json.loads(t)]: one value, with nothing but white space around it.  The
    text is long enough as fuel: every call that spends fuel has read a
    character. *)
Definition loads (t : pystr) : option json :=
  match parse_value (S (List.length t)) t with
  | Some (v, rest) =>
      match skip_ws rest with
      | [] => Some v
      | _ :: _ => None
      end
  | None => None
  end.

End Json.

Import Json.

(** ** Requests and the network *)

Inductive verb := GET | POST.

(** One outbound HTTP call: what [client.get] and [client.post] are given. *)
Record request := Request {
  method : verb;
  url : pystr;
  headers : list (pystr * pystr);
  params : option (list (pystr * pystr));
  json_body : option json
}.

(** A received response; [response.json()] decodes its body or raises.  The
    decoder gives no integer that does not fit ([PyInt.fits]): it raises on
    such a body. *)
Record response := Response { body_json : result json }.

(** What the network does with a request: a response comes back, or the call
    raises (connection failure, transport error, ...). *)
Inductive reply :=
| Replied (r : response)
| Failed (e : exn).

(** The object [SlackClient.__init__] builds. *)
Record SlackClient := { bot_headers : list (pystr * pystr) }.

(** The module-level names of the running process. *)
Record globals := Globals {
  bot_token : pystr;
  team_id : pystr;
  slack_client : SlackClient
}.

(** The state a tool runs in: the globals and the requests sent so far. *)
Record state := State {
  glob : globals;
  sent : list request
}.

(** ** Computations: state passing with exceptions *)

Definition M (A : Type) : Type := state -> result A * state.

Definition ret {A} (a : A) : M A := fun st => (Ok a, st).

Definition raise {A} (e : exn) : M A := fun st => (Raise e, st).

Definition bind {A B} (m : M A) (k : A -> M B) : M B :=
  fun st =>
    match m st with
    | (Ok a, st') => k a st'
    | (Raise e, st') => (Raise e, st')
    end.

(** [try: body / except Exception as e: handler]. *)
Definition try_except {A} (body : M A) (handler : exn -> M A) : M A :=
  fun st =>
    match body st with
    | (Ok a, st') => (Ok a, st')
    | (Raise e, st') => handler e st'
    end.

Definition read_global {A} (f : globals -> A) : M A :=
  fun st => (Ok (f (glob st)), st).

(** An expression that touches neither the globals nor the network. *)
Definition eval {A} (r : result A) : M A :=
  fun st => (r, st).

Declare Scope py_scope.
Delimit Scope py_scope with py.
Notation "x <- m ;; k" := (bind m (fun x => k))
  (at level 61, m at next level, right associativity) : py_scope.
Notation "m ;;; k" := (bind m (fun _ => k))
  (at level 61, right associativity) : py_scope.
Open Scope py_scope.

Section Server.

(** The remote service and the transport in front of it: the reply to a
    request may depend on the requests sent before. *)
Variable network : list request -> request -> reply.

(** Sending a request records it and hands back the reply. *)
Definition http (r : request) : M response :=
  fun st =>
    let st' := State (glob st) (sent st ++ [r]) in
    match network (sent st) r with
    | Replied resp => (Ok resp, st')
    | Failed e => (Raise e, st')
    end.

(** [await client.get(url, headers=..., params=...)]. *)
Definition client_get (u : pystr) (h : list (pystr * pystr))
           (p : list (pystr * pystr)) : M response :=
  http (Request GET u h (Some p) None).

(** [await client.post(url, headers=..., json=...)]. *)
Definition client_post (u : pystr) (h : list (pystr * pystr)) (j : json)
  : M response :=
  http (Request POST u h None (Some j)).

(** [response.json()]. *)
Definition response_json (r : response) : M json :=
  match body_json r with
  | Ok v => ret v
  | Raise e => raise e
  end.

(** ** [SlackClient]

    Each method builds its parameters first, in the order the source writes
    them, so that [str(...)] is evaluated, and may raise, before anything is
    sent. *)

Definition SlackClient_init (bot_token : pystr) : SlackClient :=
  {| bot_headers :=
       [ (py "Authorization", py "Bearer " ++ bot_token);
         (py "Content-Type", py "application/json") ] |}.

(** [params["cursor"] = cursor] under [if cursor:]. *)
Definition with_cursor (params : list (pystr * pystr))
           (cursor : option pystr) : list (pystr * pystr) :=
  match cursor with
  | Some c => if truthy c then dict_set params (py "cursor") c else params
  | None => params
  end.

Definition get_channels (self : SlackClient) (limit : Z)
           (cursor : option pystr) : M json :=
  limit_text <- eval (PyInt.str (PyInt.min limit 200)) ;;
  team_id <- read_global team_id ;;
  let params :=
    [ (py "types", py "public_channel");
      (py "exclude_archived", py "true");
      (py "limit", limit_text);
      (py "team_id", team_id) ] in
  let params := with_cursor params cursor in
  response <- client_get (py "https://slack.com/api/conversations.list")
                         (bot_headers self) params ;;
  response_json response.

Definition post_message (self : SlackClient) (channel_id text : pystr)
  : M json :=
  response <- client_post (py "https://slack.com/api/chat.postMessage")
                (bot_headers self)
                (JObj [ (py "channel", JStr channel_id);
                        (py "text", JStr text) ]) ;;
  response_json response.

Definition post_reply (self : SlackClient) (channel_id thread_ts text : pystr)
  : M json :=
  response <- client_post (py "https://slack.com/api/chat.postMessage")
                (bot_headers self)
                (JObj [ (py "channel", JStr channel_id);
                        (py "thread_ts", JStr thread_ts);
                        (py "text", JStr text) ]) ;;
  response_json response.

Definition add_reaction (self : SlackClient)
           (channel_id timestamp reaction : pystr) : M json :=
  response <- client_post (py "https://slack.com/api/reactions.add")
                (bot_headers self)
                (JObj [ (py "channel", JStr channel_id);
                        (py "timestamp", JStr timestamp);
                        (py "name", JStr reaction) ]) ;;
  response_json response.

Definition get_channel_history (self : SlackClient) (channel_id : pystr)
           (limit : Z) : M json :=
  limit_text <- eval (PyInt.str limit) ;;
  let params :=
    [ (py "channel", channel_id);
      (py "limit", limit_text) ] in
  response <- client_get (py "https://slack.com/api/conversations.history")
                         (bot_headers self) params ;;
  response_json response.

Definition get_thread_replies (self : SlackClient)
           (channel_id thread_ts : pystr) : M json :=
  let params :=
    [ (py "channel", channel_id);
      (py "ts", thread_ts) ] in
  response <- client_get (py "https://slack.com/api/conversations.replies")
                         (bot_headers self) params ;;
  response_json response.

Definition get_users (self : SlackClient) (limit : Z)
           (cursor : option pystr) : M json :=
  limit_text <- eval (PyInt.str (PyInt.min limit 200)) ;;
  team_id <- read_global team_id ;;
  let params :=
    [ (py "limit", limit_text);
      (py "team_id", team_id) ] in
  let params := with_cursor params cursor in
  response <- client_get (py "https://slack.com/api/users.list")
                         (bot_headers self) params ;;
  response_json response.

Definition get_user_profile (self : SlackClient) (user_id : pystr) : M json :=
  let params :=
    [ (py "user", user_id);
      (py "include_labels", py "true") ] in
  response <- client_get (py "https://slack.com/api/users.profile.get")
                         (bot_headers self) params ;;
  response_json response.

(** ** The tools *)

(** [{"error": str(e)}]. *)
Definition error_response (e : exn) : json :=
  JObj [ (py "error", JStr (str_exn e)) ].

(** The handler every tool ends with. *)
Definition on_exception (e : exn) : M pystr :=
  eval (json_dumps (error_response e)).

(** [if cond: raise e]. *)
Definition raise_if (cond : bool) (e : exn) : M unit :=
  if cond then raise e else ret tt.

Definition slack_list_channels (limit : Z) (cursor : option pystr) : M pystr :=
  try_except
    (slack_client <- read_global slack_client ;;
     response <- get_channels slack_client limit cursor ;;
     eval (json_dumps response))
    on_exception.

Definition slack_post_message (channel_id text : pystr) : M pystr :=
  try_except
    (raise_if (negb (truthy channel_id) || negb (truthy text))
       (ValueError (py "Missing required arguments: channel_id and text")) ;;;
     slack_client <- read_global slack_client ;;
     response <- post_message slack_client channel_id text ;;
     eval (json_dumps response))
    on_exception.

Definition slack_reply_to_thread (channel_id thread_ts text : pystr)
  : M pystr :=
  try_except
    (raise_if (negb (truthy channel_id) || negb (truthy thread_ts)
               || negb (truthy text))
       (ValueError
          (py "Missing required arguments: channel_id, thread_ts, and text")) ;;;
     slack_client <- read_global slack_client ;;
     response <- post_reply slack_client channel_id thread_ts text ;;
     eval (json_dumps response))
    on_exception.

Definition slack_add_reaction (channel_id timestamp reaction : pystr)
  : M pystr :=
  try_except
    (raise_if (negb (truthy channel_id) || negb (truthy timestamp)
               || negb (truthy reaction))
       (ValueError
          (py "Missing required arguments: channel_id, timestamp, and reaction")) ;;;
     slack_client <- read_global slack_client ;;
     response <- add_reaction slack_client channel_id timestamp reaction ;;
     eval (json_dumps response))
    on_exception.

Definition slack_get_channel_history (channel_id : pystr) (limit : Z)
  : M pystr :=
  try_except
    (raise_if (negb (truthy channel_id))
       (ValueError (py "Missing required argument: channel_id")) ;;;
     slack_client <- read_global slack_client ;;
     response <- get_channel_history slack_client channel_id limit ;;
     eval (json_dumps response))
    on_exception.

Definition slack_get_thread_replies (channel_id thread_ts : pystr)
  : M pystr :=
  try_except
    (raise_if (negb (truthy channel_id) || negb (truthy thread_ts))
       (ValueError (py "Missing required arguments: channel_id and thread_ts")) ;;;
     slack_client <- read_global slack_client ;;
     response <- get_thread_replies slack_client channel_id thread_ts ;;
     eval (json_dumps response))
    on_exception.

Definition slack_get_users (limit : Z) (cursor : option pystr) : M pystr :=
  try_except
    (slack_client <- read_global slack_client ;;
     response <- get_users slack_client limit cursor ;;
     eval (json_dumps response))
    on_exception.

Definition slack_get_user_profile (user_id : pystr) : M pystr :=
  try_except
    (raise_if (negb (truthy user_id))
       (ValueError (py "Missing required argument: user_id")) ;;;
     slack_client <- read_global slack_client ;;
     response <- get_user_profile slack_client user_id ;;
     eval (json_dumps response))
    on_exception.

End Server.

(** ** Tool calls *)

(** A call of a tool with its parameters bound, typed as the signatures
    annotate them. *)
Inductive tool_call :=
| ListChannels (limit : Z) (cursor : option pystr)
| PostMessage (channel_id text : pystr)
| ReplyToThread (channel_id thread_ts text : pystr)
| AddReaction (channel_id timestamp reaction : pystr)
| GetChannelHistory (channel_id : pystr) (limit : Z)
| GetThreadReplies (channel_id thread_ts : pystr)
| GetUsers (limit : Z) (cursor : option pystr)
| GetUserProfile (user_id : pystr).

(** The functions registered with [@mcp.tool()]. *)
Definition run_tool (network : list request -> request -> reply)
           (c : tool_call) : M pystr :=
  match c with
  | ListChannels limit cursor => slack_list_channels network limit cursor
  | PostMessage channel_id text => slack_post_message network channel_id text
  | ReplyToThread channel_id thread_ts text =>
      slack_reply_to_thread network channel_id thread_ts text
  | AddReaction channel_id timestamp reaction =>
      slack_add_reaction network channel_id timestamp reaction
  | GetChannelHistory channel_id limit =>
      slack_get_channel_history network channel_id limit
  | GetThreadReplies channel_id thread_ts =>
      slack_get_thread_replies network channel_id thread_ts
  | GetUsers limit cursor => slack_get_users network limit cursor
  | GetUserProfile user_id => slack_get_user_profile network user_id
  end.

(** The client method each tool calls, on the global [slack_client]. *)
Definition client_operation (network : list request -> request -> reply)
           (c : tool_call) : M json :=
  slack_client <- read_global slack_client ;;
  match c with
  | ListChannels limit cursor => get_channels network slack_client limit cursor
  | PostMessage channel_id text =>
      post_message network slack_client channel_id text
  | ReplyToThread channel_id thread_ts text =>
      post_reply network slack_client channel_id thread_ts text
  | AddReaction channel_id timestamp reaction =>
      add_reaction network slack_client channel_id timestamp reaction
  | GetChannelHistory channel_id limit =>
      get_channel_history network slack_client channel_id limit
  | GetThreadReplies channel_id thread_ts =>
      get_thread_replies network slack_client channel_id thread_ts
  | GetUsers limit cursor => get_users network slack_client limit cursor
  | GetUserProfile user_id => get_user_profile network slack_client user_id
  end.

(** Every argument the specification lists as required is non-empty. *)
Definition required_present (c : tool_call) : bool :=
  match c with
  | ListChannels _ _ => true
  | PostMessage channel_id text => truthy channel_id && truthy text
  | ReplyToThread channel_id thread_ts text =>
      truthy channel_id && truthy thread_ts && truthy text
  | AddReaction channel_id timestamp reaction =>
      truthy channel_id && truthy timestamp && truthy reaction
  | GetChannelHistory channel_id _ => truthy channel_id
  | GetThreadReplies channel_id thread_ts =>
      truthy channel_id && truthy thread_ts
  | GetUsers _ _ => true
  | GetUserProfile user_id => truthy user_id
  end.

(** The limit of the call has a decimal text: [str] does not raise while
    the client method builds its parameters. *)
Definition limit_fits (c : tool_call) : bool :=
  match c with
  | ListChannels limit _ => PyInt.fits (PyInt.min limit 200)
  | GetUsers limit _ => PyInt.fits (PyInt.min limit 200)
  | GetChannelHistory _ limit => PyInt.fits limit
  | _ => true
  end.

(** A call of a tool function as written in Python: for each parameter, the
    argument supplied for it, if any. *)
Inductive invocation :=
| InvokeListChannels (limit : option Z) (cursor : option (option pystr))
| InvokePostMessage (channel_id text : option pystr)
| InvokeReplyToThread (channel_id thread_ts text : option pystr)
| InvokeAddReaction (channel_id timestamp reaction : option pystr)
| InvokeGetChannelHistory (channel_id : option pystr) (limit : option Z)
| InvokeGetThreadReplies (channel_id thread_ts : option pystr)
| InvokeGetUsers (limit : option Z) (cursor : option (option pystr))
| InvokeGetUserProfile (user_id : option pystr).

Module Binding.

(** The name of a parameter that has no default and got no argument. *)
Definition missing {A} (name : string) (a : option A) : list pystr :=
  match a with
  | None => [py "'" ++ py name ++ py "'"]
  | Some _ => []
  end.

Fixpoint and_list (names : list pystr) : pystr :=
  match names with
  | [] => []
  | [a] => a
  | [a; b] => a ++ py ", and " ++ b
  | a :: rest => a ++ py ", " ++ and_list rest
  end.

Definition name_list (names : list pystr) : pystr :=
  match names with
  | [a; b] => a ++ py " and " ++ b
  | _ => and_list names
  end.

(** The [TypeError] a call raises when it leaves out parameters that have no
    default. *)
Definition missing_arguments (f : string) (names : list pystr) : exn :=
  TypeError
    (py f ++ py "() missing "
     ++ PyInt.decimal (Z.of_nat (List.length names))
     ++ py " required positional argument"
     ++ (match names with [_] => [] | _ => py "s" end)
     ++ py ": " ++ name_list names).

(** A parameter with a default takes it when no argument is supplied. *)
Definition default {A} (d : A) (a : option A) : A :=
  match a with
  | Some x => x
  | None => d
  end.

(** Binding the supplied arguments to the parameters of the tool's
    signature. *)
Definition bind_arguments (i : invocation) : result tool_call :=
  match i with
  | InvokeListChannels limit cursor =>
      Ok (ListChannels (default 100%Z limit) (default None cursor))
  | InvokePostMessage (Some channel_id) (Some text) =>
      Ok (PostMessage channel_id text)
  | InvokePostMessage channel_id text =>
      Raise (missing_arguments "slack_post_message"
               (missing "channel_id" channel_id ++ missing "text" text))
  | InvokeReplyToThread (Some channel_id) (Some thread_ts) (Some text) =>
      Ok (ReplyToThread channel_id thread_ts text)
  | InvokeReplyToThread channel_id thread_ts text =>
      Raise (missing_arguments "slack_reply_to_thread"
               (missing "channel_id" channel_id
                ++ missing "thread_ts" thread_ts ++ missing "text" text))
  | InvokeAddReaction (Some channel_id) (Some timestamp) (Some reaction) =>
      Ok (AddReaction channel_id timestamp reaction)
  | InvokeAddReaction channel_id timestamp reaction =>
      Raise (missing_arguments "slack_add_reaction"
               (missing "channel_id" channel_id
                ++ missing "timestamp" timestamp
                ++ missing "reaction" reaction))
  | InvokeGetChannelHistory (Some channel_id) limit =>
      Ok (GetChannelHistory channel_id (default 10%Z limit))
  | InvokeGetChannelHistory None _ =>
      Raise (missing_arguments "slack_get_channel_history"
               [py "'channel_id'"])
  | InvokeGetThreadReplies (Some channel_id) (Some thread_ts) =>
      Ok (GetThreadReplies channel_id thread_ts)
  | InvokeGetThreadReplies channel_id thread_ts =>
      Raise (missing_arguments "slack_get_thread_replies"
               (missing "channel_id" channel_id
                ++ missing "thread_ts" thread_ts))
  | InvokeGetUsers limit cursor =>
      Ok (GetUsers (default 100%Z limit) (default None cursor))
  | InvokeGetUserProfile (Some user_id) => Ok (GetUserProfile user_id)
  | InvokeGetUserProfile None =>
      Raise (missing_arguments "slack_get_user_profile" [py "'user_id'"])
  end.

End Binding.
Import Binding.

(** An argument is supplied for every parameter that has no default. *)
Definition required_supplied (i : invocation) : bool :=
  match i with
  | InvokeListChannels _ _ => true
  | InvokePostMessage channel_id text =>
      match channel_id, text with Some _, Some _ => true | _, _ => false end
  | InvokeReplyToThread channel_id thread_ts text =>
      match channel_id, thread_ts, text with
      | Some _, Some _, Some _ => true
      | _, _, _ => false
      end
  | InvokeAddReaction channel_id timestamp reaction =>
      match channel_id, timestamp, reaction with
      | Some _, Some _, Some _ => true
      | _, _, _ => false
      end
  | InvokeGetChannelHistory channel_id _ =>
      match channel_id with Some _ => true | None => false end
  | InvokeGetThreadReplies channel_id thread_ts =>
      match channel_id, thread_ts with Some _, Some _ => true | _, _ => false end
  | InvokeGetUsers _ _ => true
  | InvokeGetUserProfile user_id =>
      match user_id with Some _ => true | None => false end
  end.

(** Calling a tool function directly, as a test or another module does: the
    arguments are bound, then the function runs.  A call that cannot be bound
    raises [TypeError] before the function's [try] is entered.  (Behind the
    server, the framework checks the arguments against the same signature
    before it calls the function, and answers an absent one itself; the
    function is not entered then either.) *)
Definition invoke (network : list request -> request -> reply)
           (i : invocation) : M pystr :=
  match bind_arguments i with
  | Ok c => run_tool network c
  | Raise e => raise e
  end.

(** ** The process *)

Inductive startup_result :=
| Exited (stderr : list pystr) (status : Z)
| Started (stderr : list pystr) (g : globals).

(** The module body: the two environment variables are read, the check
    [if not bot_token or not team_id] decides between [sys.exit(1)] and
    going on to build the client. *)
Definition startup (environ : list (pystr * pystr)) : startup_result :=
  let bot_token := dict_get environ (py "SLACK_BOT_TOKEN") in
  let team_id := dict_get environ (py "SLACK_TEAM_ID") in
  let complaint :=
    py "Please set SLACK_BOT_TOKEN and SLACK_TEAM_ID environment variables" in
  match bot_token, team_id with
  | Some token, Some team =>
      if negb (truthy token) || negb (truthy team)
      then Exited [complaint] 1
      else Started [py "Starting Slack MCP Server..."]
                   (Globals token team (SlackClient_init token))
  | _, _ => Exited [complaint] 1
  end.

(** The calls are made one after the other, each as [invoke] does. *)
Fixpoint serve (network : list request -> request -> reply)
         (calls : list invocation) (st : state)
  : list (result pystr) * state :=
  match calls with
  | [] => ([], st)
  | i :: rest =>
      let (r, st1) := invoke network i st in
      let (rs, st2) := serve network rest st1 in
      (r :: rs, st2)
  end.

(** A run of the process, as seen from outside. *)
Record execution := Execution {
  stderr : list pystr;
  exit_status : Z;
  results : list (result pystr);
  requests : list request;
  final_globals : option globals
}.

Definition main (network : list request -> request -> reply)
           (environ : list (pystr * pystr)) (calls : list invocation)
  : execution :=
  match startup environ with
  | Exited err status => Execution err status [] [] None
  | Started err g =>
      let (rs, st) := serve network calls (State g []) in
      Execution err 0 rs (sent st) (Some (glob st))
  end.


(** * Properties *)

(** ** Integers and their decimal text *)

Module PyIntFacts.
Import PyInt.

(** What follows a number in a JSON text is no digit, no fraction and no
    exponent. *)
Definition delimited (rest : pystr) : bool :=
  match rest with
  | [] => true
  | c :: _ => negb (is_digit c) && ends_number rest
  end.

Lemma span_digits_chars d rest :
  delimited rest = true -> span_digits (uint_chars d ++ rest) = (d, rest).
Proof.
  intros Hrest.
  induction d; simpl; try (rewrite IHd; reflexivity).
  destruct rest as [|c r]; [reflexivity|].
  simpl in *. apply andb_prop in Hrest as [Hd _].
  apply negb_true_iff in Hd. now rewrite Hd.
Qed.

Lemma unorm_D0 d d' : Decimal.unorm d = Decimal.D0 d' -> d' = Decimal.Nil.
Proof.
  induction d; simpl; intros H; try discriminate; auto.
  now injection H as <-.
Qed.

Lemma to_uint_normal p : Decimal.unorm (Pos.to_uint p) = Pos.to_uint p.
Proof.
  rewrite <- DecimalPos.Unsigned.to_of, DecimalPos.Unsigned.of_to.
  reflexivity.
Qed.

(** The decimal text of a positive number starts with a digit other than
    [0]. *)
Lemma to_uint_head p :
  exists c tl,
    uint_chars (Pos.to_uint p) = c :: tl
    /\ is_digit c = true /\ (c =? 48)%N = false.
Proof.
  pose proof (to_uint_normal p) as Hn.
  pose proof (DecimalPos.Unsigned.to_uint_nonzero p) as Hz.
  pose proof (DecimalPos.Unsigned.to_uint_nonnil p) as Hnil.
  destruct (Pos.to_uint p) as [|d|d|d|d|d|d|d|d|d|d] eqn:E;
    try (simpl; eexists _, _; repeat split; reflexivity).
  - congruence.
  - simpl in Hn. apply unorm_D0 in Hn. subst d. now elim Hz.
Qed.

Lemma parse_uint_pos p rest :
  delimited rest = true ->
  parse_uint (uint_chars (Pos.to_uint p) ++ rest) = Some (Pos.to_uint p, rest).
Proof.
  intros Hrest.
  destruct (to_uint_head p) as (c & tl & E & Hd & H0).
  pose proof (span_digits_chars (Pos.to_uint p) rest Hrest) as Hs.
  rewrite E in *. simpl app in *. unfold parse_uint.
  now rewrite H0, Hd, Hs.
Qed.

Lemma delimited_ends rest : delimited rest = true -> ends_number rest = true.
Proof.
  destruct rest; [reflexivity|]. unfold delimited.
  intros H. now apply andb_prop in H.
Qed.

(** Reading back the text of an integer that fits gives the integer. *)
Lemma parse_int_decimal z rest :
  fits z = true ->
  delimited rest = true -> parse_int (decimal z ++ rest) = Some (z, rest).
Proof.
  intros Hfit Hrest. pose proof (delimited_ends rest Hrest) as He.
  destruct z as [|p|p].
  - unfold decimal. simpl Z.to_int. simpl app. unfold parse_int, parse_uint.
    change (48 =? 45)%N with false. change (48 =? 48)%N with true.
    cbv iota. rewrite He. reflexivity.
  - unfold decimal. simpl Z.to_int.
    destruct (to_uint_head p) as (c & tl & E & Hd & H0).
    pose proof (parse_uint_pos p rest Hrest) as Hp.
    rewrite E in *. simpl app in *. unfold parse_int.
    replace (c =? 45)%N with false.
    + rewrite Hp, He. unfold digits_fit.
      change (Nat.leb (Decimal.nb_digits (Pos.to_uint p)) max_str_digits)
        with (fits (Z.pos p)).
      rewrite Hfit. cbv [andb]. f_equal. f_equal.
      exact (DecimalZ.of_to (Z.pos p)).
    + symmetry. apply N.eqb_neq. intros ->. discriminate Hd.
  - unfold decimal. simpl Z.to_int. simpl app. unfold parse_int.
    rewrite N.eqb_refl, (parse_uint_pos p rest Hrest), He. unfold digits_fit.
    change (Nat.leb (Decimal.nb_digits (Pos.to_uint p)) max_str_digits)
      with (fits (Z.neg p)).
    rewrite Hfit. cbv [andb].
    f_equal. f_equal. exact (DecimalZ.of_to (Z.neg p)).
Qed.

(** The text of an integer starts with [-] or with a digit. *)
Lemma decimal_head z :
  exists c tl, decimal z = c :: tl /\ (c = 45%N \/ is_digit c = true).
Proof.
  destruct z as [|p|p]; unfold decimal; simpl Z.to_int.
  - eexists _, _. split; [reflexivity|]. now right.
  - destruct (to_uint_head p) as (c & tl & E & Hd & _).
    exists c, tl. auto.
  - eexists _, _. split; [reflexivity|]. now left.
Qed.

(** [str] gives the decimal text of an integer that fits, and raises for one
    that does not. *)
Lemma str_fits z : fits z = true -> str z = Ok (decimal z).
Proof. intros H. unfold str. now rewrite H. Qed.

Lemma str_raises z : fits z = false -> str z = Raise too_many_digits.
Proof. intros H. unfold str. now rewrite H. Qed.

Lemma min_le a b : (a <= b)%Z -> PyInt.min a b = a.
Proof.
  intros H. unfold PyInt.min. destruct (Z.ltb_spec b a); [lia|reflexivity].
Qed.

Lemma min_gt a b : (b < a)%Z -> PyInt.min a b = b.
Proof.
  intros H. unfold PyInt.min. destruct (Z.ltb_spec b a); [reflexivity|lia].
Qed.

(** *** Digits and magnitude *)

Lemma usize_nb_digits d :
  DecimalPos.Unsigned.usize d = N.of_nat (Decimal.nb_digits d).
Proof.
  induction d; cbn [DecimalPos.Unsigned.usize Decimal.nb_digits];
    rewrite ?IHd, ?Nat2N.inj_succ; reflexivity.
Qed.

(** A little-endian digit list stands for a number below the power of ten of
    its length. *)
Lemma of_lu_lt d :
  (DecimalPos.Unsigned.of_lu d < 10 ^ DecimalPos.Unsigned.usize d)%N.
Proof.
  induction d;
    cbn [DecimalPos.Unsigned.of_lu DecimalPos.Unsigned.usize];
    rewrite ?N.pow_succ_r'; [rewrite N.pow_0_r; lia|..];
    set (X := (10 ^ DecimalPos.Unsigned.usize d)%N) in *; lia.
Qed.

(** A positive number lies between the powers of ten its number of digits
    gives. *)
Lemma pos_digits_bounds p :
  exists m,
    Decimal.nb_digits (Pos.to_uint p) = S m
    /\ (10 ^ N.of_nat m <= N.pos p < 10 ^ N.of_nat (S m))%N.
Proof.
  pose proof (DecimalPos.Unsigned.of_to p) as Hv.
  pose proof (to_uint_normal p) as Hn.
  pose proof (DecimalPos.Unsigned.to_uint_nonzero p) as Hz.
  pose proof (DecimalPos.Unsigned.to_uint_nonnil p) as Hnil.
  destruct (Pos.to_uint p) as [|d|d|d|d|d|d|d|d|d|d] eqn:E;
    [congruence
    |simpl in Hn; apply unorm_D0 in Hn; subst d; now elim Hz
    |..];
    exists (Decimal.nb_digits d); (split; [reflexivity|]);
    rewrite <- Hv; cbn [Pos.of_uint];
    rewrite DecimalPos.Unsigned.of_uint_acc_rev;
    pose proof (of_lu_lt (Decimal.rev d)) as Hlt;
    rewrite !usize_nb_digits, DecimalFacts.nb_digits_rev in *;
    rewrite Nat2N.inj_succ, N.pow_succ_r';
    set (X := (10 ^ N.of_nat (Decimal.nb_digits d))%N) in *; lia.
Qed.

Lemma digits_bounds z :
  z <> 0%Z ->
  exists m,
    digits z = S m
    /\ (10 ^ Z.of_nat m <= Z.abs z < 10 ^ Z.of_nat (S m))%Z.
Proof.
  intros Hz.
  assert (H : forall p, exists m,
               Decimal.nb_digits (Pos.to_uint p) = S m
               /\ (10 ^ Z.of_nat m <= Z.pos p < 10 ^ Z.of_nat (S m))%Z).
  { intros p. destruct (pos_digits_bounds p) as (m & Hm & Hlo & Hhi).
    exists m. split; [exact Hm|].
    apply N2Z.inj_le in Hlo. apply N2Z.inj_lt in Hhi.
    rewrite N2Z.inj_pow, nat_N_Z in Hlo, Hhi.
    split; assumption. }
  destruct z as [|p|p]; [congruence|apply H|apply H].
Qed.

(** An integer has at most [k] digits exactly when it is below [10 ^ k] in
    magnitude. *)
Lemma digits_le_iff z k :
  (1 <= k)%nat ->
  (digits z <= k)%nat <-> (Z.abs z < 10 ^ Z.of_nat k)%Z.
Proof.
  intros Hk. destruct (Z.eq_dec z 0) as [->|Hz].
  - split; intros _.
    + apply Z.pow_pos_nonneg; lia.
    + exact Hk.
  - destruct (digits_bounds Hz) as (m & Hm & Hlo & Hhi). rewrite Hm.
    split; intros H.
    + apply Z.lt_le_trans with (1 := Hhi).
      apply Z.pow_le_mono_r; lia.
    + destruct (Nat.le_gt_cases (S m) k) as [Hle|Hgt]; [exact Hle|].
      exfalso.
      assert (10 ^ Z.of_nat k <= 10 ^ Z.of_nat m)%Z
        by (apply Z.pow_le_mono_r; lia).
      set (A := (10 ^ Z.of_nat k)%Z) in *.
      set (B := (10 ^ Z.of_nat m)%Z) in *. lia.
Qed.

Lemma max_str_digits_Z : Z.of_nat max_str_digits = 4300%Z.
Proof. reflexivity. Qed.

(** An integer fits exactly when its magnitude is below [10 ^ 4300]. *)
Lemma fits_iff z : fits z = true <-> (Z.abs z < 10 ^ 4300)%Z.
Proof.
  unfold fits. rewrite Nat.leb_le, <- max_str_digits_Z.
  apply digits_le_iff. unfold max_str_digits. apply le_n_S, Nat.le_0_l.
Qed.

Lemma fits_below z : (Z.abs z < 10 ^ 4300)%Z -> fits z = true.
Proof. apply fits_iff. Qed.

Lemma not_fits z : (10 ^ 4300 <= Z.abs z)%Z -> fits z = false.
Proof.
  intros H. destruct (fits z) eqn:E; [|reflexivity].
  apply fits_iff in E. revert H E.
  generalize (10 ^ 4300)%Z. intros A H E. lia.
Qed.

(** The first integers that do not fit, on either side. *)
Lemma not_fits_pow : fits (10 ^ 4300) = false.
Proof.
  apply not_fits. rewrite Z.abs_eq by (apply Z.pow_nonneg; lia).
  apply Z.le_refl.
Qed.

Lemma not_fits_opp_pow : fits (- 10 ^ 4300) = false.
Proof.
  apply not_fits. rewrite Z.abs_opp.
  rewrite Z.abs_eq by (apply Z.pow_nonneg; lia).
  apply Z.le_refl.
Qed.

Lemma min_opp_pow : PyInt.min (- 10 ^ 4300) 200 = (- 10 ^ 4300)%Z.
Proof.
  apply min_le.
  pose proof (Z.pow_nonneg 10 4300 ltac:(lia)) as H. revert H.
  generalize (10 ^ 4300)%Z. intros A H. lia.
Qed.

Lemma not_fits_min_opp_pow : fits (PyInt.min (- 10 ^ 4300) 200) = false.
Proof. rewrite min_opp_pow. exact not_fits_opp_pow. Qed.

(** The capped limit of a listing fits exactly when the limit is above
    [- 10 ^ 4300]. *)
Lemma fits_min_iff limit :
  fits (PyInt.min limit 200) = true <-> (- 10 ^ 4300 < limit)%Z.
Proof.
  pose proof (Z.pow_nonneg 10 4300 ltac:(lia)) as Hbig.
  destruct (Z.lt_ge_cases 200 limit) as [H|H].
  - rewrite (min_gt H). split; intros _.
    + revert Hbig. generalize (10 ^ 4300)%Z. intros A Hbig. lia.
    + reflexivity.
  - rewrite (min_le H), fits_iff.
    assert (Hlin : (200 < 10 ^ 4300)%Z).
    { apply Z.lt_trans with (m := 4300%Z); [reflexivity|].
      apply Z.pow_gt_lin_r; [reflexivity|discriminate]. }
    revert Hbig Hlin. generalize (10 ^ 4300)%Z. intros A Hbig Hlin. lia.
Qed.

End PyIntFacts.

(** ** JSON text *)

Module JsonFacts.

Open Scope N_scope.

(** A string that dumping and parsing leave as it is: every code point is
    below [0x110000] (as in every [str]), and no high surrogate is directly
    followed by a low one.  [json.dumps] writes such a pair as two escapes,
    which a parser reads back as one character; a [str] can hold the pair all
    the same, also one decoded from the bytes of a response. *)
Fixpoint wf_str (s : pystr) : bool :=
  match s with
  | [] => true
  | c :: r =>
      (c <? 0x110000)
      && negb (is_high c && match r with c2 :: _ => is_low c2 | [] => false end)
      && wf_str r
  end.

Lemma hex_value_digit n : n < 16 -> hex_value (hex_digit n) = Some n.
Proof.
  intros H. destruct n as [|p]; [reflexivity|].
  do 5 (try destruct p as [p|p|]); try reflexivity; exfalso; lia.
Qed.

Lemma hex4_value_hex4 n :
  n < 0x10000 ->
  hex4_value (hex_digit (N.shiftr n 12 mod 16)) (hex_digit (N.shiftr n 8 mod 16))
             (hex_digit (N.shiftr n 4 mod 16)) (hex_digit (n mod 16))
  = Some n.
Proof.
  intros H. unfold hex4_value.
  rewrite !hex_value_digit by (apply N.mod_lt; discriminate).
  f_equal. rewrite !N.shiftr_div_pow2.
  change (2 ^ 12) with 4096. change (2 ^ 8) with 256. change (2 ^ 4) with 16.
  zify. Z.to_euclidean_division_equations. lia.
Qed.

Lemma land_shiftl_low x b n : b < 2 ^ n -> N.land (N.shiftl x n) b = 0.
Proof.
  intros H. apply N.bits_inj_0. intros m. rewrite N.land_spec.
  destruct (N.lt_ge_cases m n) as [Hm|Hm].
  - now rewrite N.shiftl_spec_low.
  - replace b with (b mod 2 ^ n) by now apply N.mod_small.
    rewrite N.mod_pow2_bits_high by assumption. apply andb_false_r.
Qed.

Lemma lor_shiftl_add x b n :
  b < 2 ^ n -> N.lor (N.shiftl x n) b = x * 2 ^ n + b.
Proof.
  intros H.
  rewrite <- N.lxor_lor by now apply land_shiftl_low.
  rewrite <- N.add_nocarry_lxor by now apply land_shiftl_low.
  now rewrite N.shiftl_mul_pow2.
Qed.

(** The two halves [json.dumps] writes for a character above the basic
    plane. *)
Definition high_half (c : N) : N :=
  N.lor 0xd800 (N.land (N.shiftr (c - 0x10000) 10) 0x3ff).
Definition low_half (c : N) : N :=
  N.lor 0xdc00 (N.land (c - 0x10000) 0x3ff).

Lemma high_half_eq c : high_half c = 0xd800 + ((c - 0x10000) / 1024) mod 1024.
Proof.
  unfold high_half.
  change 0x3ff with (N.ones 10). rewrite N.land_ones, N.shiftr_div_pow2.
  change 0xd800 with (N.shiftl 54 10).
  rewrite lor_shiftl_add by (apply N.mod_lt; discriminate).
  reflexivity.
Qed.

Lemma low_half_eq c : low_half c = 0xdc00 + (c - 0x10000) mod 1024.
Proof.
  unfold low_half.
  change 0x3ff with (N.ones 10). rewrite N.land_ones.
  change 0xdc00 with (N.shiftl 55 10).
  rewrite lor_shiftl_add by (apply N.mod_lt; discriminate).
  reflexivity.
Qed.

Lemma halves_range c :
  (0xd800 <= high_half c <= 0xdbff) /\ (0xdc00 <= low_half c <= 0xdfff).
Proof.
  rewrite high_half_eq, low_half_eq.
  zify. Z.to_euclidean_division_equations. lia.
Qed.

Lemma join_halves c :
  0x10000 <= c < 0x110000 -> join_surrogates (high_half c) (low_half c) = c.
Proof.
  intros H. unfold join_surrogates.
  rewrite high_half_eq, low_half_eq.
  rewrite (N.add_comm 0xd800), (N.add_comm 0xdc00), !N.add_sub.
  rewrite lor_shiftl_add by (apply N.mod_lt; discriminate).
  change (2 ^ 10) with 1024.
  zify. Z.to_euclidean_division_equations. lia.
Qed.

Lemma scanstring_u a b c d r2 :
  scanstring (92 :: 117 :: a :: b :: c :: d :: r2)
  = match hex4_value a b c d with
    | None => None
    | Some uni =>
        match (if is_high uni then low_surrogate_ahead r2 else None), r2 with
        | Some uni2, _ :: _ :: _ :: _ :: _ :: _ :: r3 =>
            cons_char (join_surrogates uni uni2) (scanstring r3)
        | _, _ => cons_char uni (scanstring r2)
        end
    end.
Proof. reflexivity. Qed.

Lemma u_escape_app n X :
  u_escape n ++ X
  = 92 :: 117 :: hex_digit (N.shiftr n 12 mod 16)
       :: hex_digit (N.shiftr n 8 mod 16)
       :: hex_digit (N.shiftr n 4 mod 16) :: hex_digit (n mod 16) :: X.
Proof. reflexivity. Qed.

(** One [\uXXXX] escape that is not the first half of a pair. *)
Lemma scan_u_escape uni X :
  uni < 0x10000 ->
  (is_high uni = true -> low_surrogate_ahead X = None) ->
  scanstring (u_escape uni ++ X) = cons_char uni (scanstring X).
Proof.
  intros Hu Hlow.
  rewrite u_escape_app, scanstring_u, hex4_value_hex4 by assumption.
  destruct (is_high uni); [rewrite Hlow by reflexivity|]; reflexivity.
Qed.

Lemma low_ahead_u_escape uni X :
  uni < 0x10000 ->
  low_surrogate_ahead (u_escape uni ++ X)
  = if is_low uni then Some uni else None.
Proof.
  intros Hu. rewrite u_escape_app.
  unfold low_surrogate_ahead. simpl N.eqb. cbv iota.
  now rewrite hex4_value_hex4.
Qed.

(** The two escapes of a character above the basic plane. *)
Lemma scan_pair c X :
  0x10000 <= c < 0x110000 ->
  scanstring (u_escape (high_half c) ++ u_escape (low_half c) ++ X)
  = cons_char c (scanstring X).
Proof.
  intros Hc. destruct (halves_range c) as [Hh Hl].
  assert (Hhi : is_high (high_half c) = true).
  { unfold is_high. apply andb_true_intro. split; apply N.leb_le; lia. }
  assert (Hlo : is_low (low_half c) = true).
  { unfold is_low. apply andb_true_intro. split; apply N.leb_le; lia. }
  rewrite u_escape_app, scanstring_u, hex4_value_hex4 by lia.
  rewrite Hhi, low_ahead_u_escape, Hlo by lia.
  rewrite u_escape_app.
  now rewrite join_halves.
Qed.

(** The shapes [escape_char] produces. *)
Inductive escape_case (c : N) : pystr -> Prop :=
| esc_short e :
    backslash e = Some c -> e <> 117 -> escape_case c [92; e]
| esc_plain :
    c <> 34 -> c <> 92 -> 32 <= c -> escape_case c [c]
| esc_u :
    c < 0x10000 -> escape_case c (u_escape c)
| esc_pair :
    0x10000 <= c ->
    escape_case c (u_escape (high_half c) ++ u_escape (low_half c)).

Lemma escape_char_case c : escape_case c (escape_char c).
Proof.
  unfold escape_char.
  repeat match goal with
         | |- context [if ?x =? ?k then _ else _] =>
             destruct (N.eqb_spec x k);
             [subst; apply esc_short; [reflexivity | discriminate]|]
         end.
  destruct (N.leb_spec 32 c) as [H32|H32]; cbv beta iota delta [andb].
  - destruct (N.leb_spec c 126) as [H126|H126].
    + apply esc_plain; assumption.
    + destruct (N.ltb_spec c 0x10000) as [Hu|Hu].
      * apply esc_u; assumption.
      * apply (esc_pair Hu).
  - destruct (N.ltb_spec c 0x10000) as [Hu|Hu].
    + apply esc_u; assumption.
    + apply (esc_pair Hu).
Qed.

Lemma scanstring_backslash e r1 :
  e <> 117 ->
  scanstring (92 :: e :: r1)
  = match backslash e with
    | Some x => cons_char x (scanstring r1)
    | None => None
    end.
Proof.
  intros He. apply N.eqb_neq in He. simpl. now rewrite He.
Qed.

Lemma scanstring_plain c r :
  c <> 34 -> c <> 92 -> 32 <= c ->
  scanstring (c :: r) = cons_char c (scanstring r).
Proof.
  intros H1 H2 H3. simpl.
  apply N.eqb_neq in H1, H2. apply N.ltb_ge in H3.
  now rewrite H1, H2, H3.
Qed.

(** Reading one escaped character. *)
Lemma scan_escape_char c X :
  c < 0x110000 ->
  (is_high c = true -> low_surrogate_ahead X = None) ->
  scanstring (escape_char c ++ X) = cons_char c (scanstring X).
Proof.
  intros Hc Hlow.
  destruct (escape_char_case c) as [e He Hne|H1 H2 H3|Hu|Hp].
  - simpl app. rewrite scanstring_backslash, He by assumption. reflexivity.
  - simpl app. now apply scanstring_plain.
  - now apply scan_u_escape.
  - rewrite <- app_assoc. apply scan_pair. lia.
Qed.

Lemma low_ahead_escape_char c Y :
  is_low c = false ->
  low_surrogate_ahead (escape_char c ++ Y) = None.
Proof.
  intros Hl.
  destruct (escape_char_case c) as [e He Hne|H1 H2 H3|Hu|Hp].
  - apply N.eqb_neq in Hne. simpl. now rewrite Hne.
  - apply N.eqb_neq in H2. simpl. now rewrite H2.
  - rewrite low_ahead_u_escape, Hl by assumption. reflexivity.
  - rewrite <- app_assoc.
    destruct (halves_range c) as [Hh _].
    rewrite low_ahead_u_escape by lia.
    unfold is_low. destruct (N.leb_spec 0xdc00 (high_half c)); [lia|reflexivity].
Qed.

(** What [encode_string] writes between the quotes reads back as the
    string. *)
Lemma scanstring_escaped s rest :
  wf_str s = true ->
  scanstring (flat_map escape_char s ++ 34 :: rest) = Some (s, rest).
Proof.
  induction s as [|c s IH]; intros Hwf.
  - reflexivity.
  - simpl in Hwf. apply andb_prop in Hwf as [Hwf Hs].
    apply andb_prop in Hwf as [Hc Hadj].
    apply N.ltb_lt in Hc. apply negb_true_iff in Hadj.
    simpl flat_map. rewrite <- app_assoc.
    rewrite scan_escape_char.
    + now rewrite IH.
    + assumption.
    + intros Hhi. rewrite Hhi in Hadj. simpl in Hadj.
      destruct s as [|c2 s2]; [reflexivity|].
      simpl flat_map. rewrite <- app_assoc.
      now apply low_ahead_escape_char.
Qed.

Lemma scanstring_encode s rest :
  wf_str s = true ->
  scanstring (tl (encode_string s ++ rest)) = Some (s, rest).
Proof.
  intros Hwf. unfold encode_string, quoted, dquote. simpl.
  rewrite <- app_assoc. now apply scanstring_escaped.
Qed.

(** *** Dictionaries *)

Fixpoint distinct (ks : list pystr) : bool :=
  match ks with
  | [] => true
  | k :: r => negb (existsb (PyStr.eqb k) r) && distinct r
  end.

Lemma distinct_NoDup ks : distinct ks = true -> NoDup ks.
Proof.
  induction ks as [|k r IH]; simpl; intros H; constructor.
  - apply andb_prop in H as [H _]. apply negb_true_iff in H.
    intros Hin. assert (existsb (PyStr.eqb k) r = true) as E.
    { apply existsb_exists. exists k. split; [assumption|apply PyStr.eqb_refl]. }
    congruence.
  - apply IH. now apply andb_prop in H.
Qed.

Lemma dict_set_fresh {V} (d : list (pystr * V)) k v :
  ~ In k (List.map fst d) -> dict_set d k v = d ++ [(k, v)].
Proof.
  induction d as [|[k' v'] d IH]; simpl; intros H; [reflexivity|].
  destruct (PyStr.eqb k k') eqn:E.
  - apply PyStr.eqb_eq in E. subst. tauto.
  - rewrite IH by tauto. reflexivity.
Qed.

Lemma fold_dict_set {V} (m d : list (pystr * V)) :
  NoDup (List.map fst (d ++ m)) ->
  fold_left (fun d kv => dict_set d (fst kv) (snd kv)) m d = d ++ m.
Proof.
  revert d. induction m as [|[k v] m IH]; intros d H; simpl.
  - now rewrite List.app_nil_r.
  - rewrite dict_set_fresh.
    + rewrite IH; rewrite <- app_assoc; [reflexivity|assumption].
    + rewrite map_app in H. simpl in H.
      apply NoDup_remove_2 in H. intros Hin. apply H.
      apply in_or_app. now left.
Qed.

(** Pairs with distinct keys make the dictionary that lists them. *)
Lemma dict_of_pairs_distinct {V} (m : list (pystr * V)) :
  distinct (List.map fst m) = true -> dict_of_pairs m = m.
Proof.
  intros H. unfold dict_of_pairs.
  now rewrite fold_dict_set by (simpl; now apply distinct_NoDup).
Qed.

(** *** Values *)

(** A value whose strings and keys are such strings, the keys of each object
    being distinct (as in every [dict]). *)
Fixpoint wf (v : json) : bool :=
  match v with
  | JNull | JBool _ | JInt _ => true
  | JStr s => wf_str s
  | JArr items => forallb wf items
  | JObj members =>
      distinct (List.map fst members)
      && forallb (fun kv => wf_str (fst kv) && wf (snd kv)) members
  end.

Definition sep : pystr := py ", ".

Definition member (kv : pystr * json) : pystr :=
  encode_string (fst kv) ++ py ": " ++ dumps (snd kv).

Lemma dumps_arr items :
  dumps (JArr items) = 91 :: join sep (List.map dumps items) ++ [93].
Proof. reflexivity. Qed.

Lemma dumps_obj members :
  dumps (JObj members) = 123 :: join sep (List.map member members) ++ [125].
Proof. reflexivity. Qed.

Lemma dumps_str s :
  dumps (JStr s) = 34 :: flat_map escape_char s ++ [34].
Proof. reflexivity. Qed.

Lemma member_eq k v :
  member (k, v) = 34 :: flat_map escape_char k ++ 34 :: 58 :: 32 :: dumps v.
Proof.
  unfold member, encode_string, quoted, dquote. simpl.
  now rewrite <- app_assoc.
Qed.

Lemma digit_not_ws c : PyInt.is_digit c = true -> is_ws c = false.
Proof.
  unfold PyInt.is_digit, is_ws. intros H.
  apply andb_prop in H as [H1 H2]. apply N.leb_le in H1, H2.
  repeat match goal with
         | |- context [?x =? ?k] => destruct (N.eqb_spec x k); [lia|]
         end.
  reflexivity.
Qed.

(** The text of a value starts with a character that is neither white space
    nor a closing bracket. *)
Lemma dumps_head v :
  exists c tl, dumps v = c :: tl /\ is_ws c = false /\ (c =? 93) = false.
Proof.
  destruct v as [|[|]|z|s|items|members];
    try (eexists _, _; repeat split; reflexivity).
  - destruct (PyIntFacts.decimal_head z) as (c & tl & E & [->|Hd]).
    + exists 45, tl. auto.
    + exists c, tl. repeat split; [assumption|now apply digit_not_ws|].
      unfold PyInt.is_digit in Hd. apply andb_prop in Hd as [H1 H2].
      apply N.leb_le in H1, H2. apply N.eqb_neq. lia.
Qed.

(** *** The decoder, one step at a time *)

Lemma skip_ws_head c r : is_ws c = false -> skip_ws (c :: r) = c :: r.
Proof. intros H. simpl. now rewrite H. Qed.

Lemma parse_value_string fuel r :
  parse_value (S fuel) (34 :: r)
  = match scanstring r with
    | Some (str, rest) => Some (JStr str, rest)
    | None => None
    end.
Proof. reflexivity. Qed.

Lemma parse_value_array fuel r :
  parse_value (S fuel) (91 :: r)
  = match skip_ws r with
    | c2 :: r2 =>
        if c2 =? 93 then Some (JArr [], r2)
        else
          match parse_items fuel r with
          | Some (items, rest) => Some (JArr items, rest)
          | None => None
          end
    | [] => None
    end.
Proof. reflexivity. Qed.

Lemma parse_value_object fuel r :
  parse_value (S fuel) (123 :: r)
  = match skip_ws r with
    | c2 :: r2 =>
        if c2 =? 125 then Some (JObj [], r2)
        else
          match parse_members fuel r with
          | Some (pairs, rest) => Some (JObj (dict_of_pairs pairs), rest)
          | None => None
          end
    | [] => None
    end.
Proof. reflexivity. Qed.

Lemma parse_value_number fuel c r :
  c = 45 \/ PyInt.is_digit c = true ->
  parse_value (S fuel) (c :: r)
  = match parse_int (c :: r) with
    | Some (z, rest) => Some (JInt z, rest)
    | None => None
    end.
Proof.
  intros [->|Hd]; [reflexivity|].
  unfold PyInt.is_digit in Hd. apply andb_prop in Hd as [H1 H2].
  apply N.leb_le in H1, H2.
  assert (Hws : is_ws c = false).
  { apply digit_not_ws. unfold PyInt.is_digit.
    apply andb_true_intro. split; now apply N.leb_le. }
  cbn [parse_value]. rewrite skip_ws_head by assumption.
  repeat match goal with
         | |- context [c =? ?k] => destruct (N.eqb_spec c k); [lia|]
         end.
  reflexivity.
Qed.

Lemma parse_items_step fuel s :
  parse_items (S fuel) s
  = match parse_value fuel s with
    | None => None
    | Some (v, rest) =>
        match skip_ws rest with
        | c :: r =>
            if c =? 44 then
              match parse_items fuel r with
              | Some (vs, rest') => Some (v :: vs, rest')
              | None => None
              end
            else if c =? 93 then Some ([v], r)
            else None
        | [] => None
        end
    end.
Proof. reflexivity. Qed.

Lemma parse_members_step fuel r0 :
  parse_members (S fuel) (34 :: r0)
  = match scanstring r0 with
    | None => None
    | Some (key, r1) =>
        match skip_ws r1 with
        | colon :: r2 =>
            if colon =? 58 then
              match parse_value fuel r2 with
              | None => None
              | Some (v, rest) =>
                  match skip_ws rest with
                  | c :: r =>
                      if c =? 44 then
                        match parse_members fuel r with
                        | Some (kvs, rest') => Some ((key, v) :: kvs, rest')
                        | None => None
                        end
                      else if c =? 125 then Some ([(key, v)], r)
                      else None
                  | [] => None
                  end
              end
            else None
        | [] => None
        end
    end.
Proof. reflexivity. Qed.

(** A space in front of a value is skipped. *)
Lemma parse_value_space fuel s :
  parse_value fuel (32 :: s) = parse_value fuel s.
Proof. destruct fuel; reflexivity. Qed.

Lemma parse_items_space fuel s :
  parse_items fuel (32 :: s) = parse_items fuel s.
Proof.
  destruct fuel; [reflexivity|].
  now rewrite !parse_items_step, parse_value_space.
Qed.

Lemma parse_members_space fuel s :
  parse_members fuel (32 :: s) = parse_members fuel s.
Proof. destruct fuel; reflexivity. Qed.

(** *** Decoding what [dumps] wrote *)

Definition wf_member (kv : pystr * json) : bool :=
  wf_str (fst kv) && wf (snd kv).

Definition value_ok (fuel : nat) : Prop :=
  forall v rest,
    wf v = true ->
    ints_fit v = true ->
    (List.length (dumps v) < fuel)%nat ->
    PyIntFacts.delimited rest = true ->
    parse_value fuel (dumps v ++ rest) = Some (v, rest).

Definition items_ok (fuel : nat) : Prop :=
  forall v vs rest,
    forallb wf (v :: vs) = true ->
    forallb ints_fit (v :: vs) = true ->
    (List.length (join sep (List.map dumps (v :: vs))) + 1 < fuel)%nat ->
    parse_items fuel (join sep (List.map dumps (v :: vs)) ++ 93 :: rest)
    = Some (v :: vs, rest).

Definition members_ok (fuel : nat) : Prop :=
  forall kv kvs rest,
    forallb wf_member (kv :: kvs) = true ->
    forallb (fun kv => ints_fit (snd kv)) (kv :: kvs) = true ->
    (List.length (join sep (List.map member (kv :: kvs))) + 1 < fuel)%nat ->
    parse_members fuel (join sep (List.map member (kv :: kvs)) ++ 125 :: rest)
    = Some (kv :: kvs, rest).

Lemma join_cons2 (x y : pystr) l :
  join sep (x :: y :: l) = x ++ 44 :: 32 :: join sep (y :: l).
Proof. reflexivity. Qed.

Lemma length_join_cons2 (x y : pystr) l :
  List.length (join sep (x :: y :: l))
  = (List.length x + 2 + List.length (join sep (y :: l)))%nat.
Proof.
  rewrite join_cons2, List.length_app. simpl. lia.
Qed.

Lemma value_step fuel :
  value_ok fuel -> items_ok fuel -> members_ok fuel -> value_ok (S fuel).
Proof.
  intros _ IHi IHm v rest Hwf Hfit Hlen Hrest.
  destruct v as [|[|]|z|s|items|members].
  - reflexivity.
  - reflexivity.
  - reflexivity.
  - destruct (PyIntFacts.decimal_head z) as (c & tl & E & Hc).
    pose proof (PyIntFacts.parse_int_decimal z rest Hfit Hrest) as Hp.
    change (dumps (JInt z)) with (PyInt.decimal z).
    rewrite E in *. simpl app in *.
    now rewrite parse_value_number, Hp.
  - rewrite dumps_str. simpl app. rewrite parse_value_string.
    rewrite <- app_assoc. simpl app.
    now rewrite scanstring_escaped.
  - destruct items as [|v1 vs]; [reflexivity|].
    rewrite dumps_arr in *.
    set (J := join sep (List.map dumps (v1 :: vs))) in *.
    change ((91 :: J ++ [93]) ++ rest) with (91 :: (J ++ [93]) ++ rest).
    rewrite parse_value_array, <- app_assoc.
    change ([93] ++ rest) with (93 :: rest).
    assert (Hhead : exists c tl,
               J ++ 93 :: rest = c :: tl
               /\ is_ws c = false /\ (c =? 93) = false).
    { subst J. destruct (dumps_head v1) as (c & tl & E & Hws & Hc).
      destruct vs as [|v2 vs].
      - simpl. rewrite E. simpl. eauto.
      - simpl List.map. rewrite join_cons2, E. simpl. eauto. }
    destruct Hhead as (c & tl & E & Hws & Hc).
    assert (Hskip : skip_ws (J ++ 93 :: rest) = c :: tl)
      by (rewrite E; now apply skip_ws_head).
    assert (Hlen' : (List.length J + 1 < fuel)%nat).
    { change (List.length (91 :: J ++ [93]))
        with (S (List.length (J ++ [93]))) in Hlen.
      rewrite List.length_app in Hlen.
      change (List.length [93]) with 1%nat in Hlen. lia. }
    rewrite Hskip, Hc. subst J.
    rewrite IHi; [reflexivity|exact Hwf|exact Hfit|exact Hlen'].
  - destruct members as [|[k1 v1] ms]; [reflexivity|].
    simpl in Hwf. apply andb_prop in Hwf as [Hd Hwf].
    rewrite dumps_obj in *.
    set (J := join sep (List.map member ((k1, v1) :: ms))) in *.
    change ((123 :: J ++ [125]) ++ rest) with (123 :: (J ++ [125]) ++ rest).
    rewrite parse_value_object, <- app_assoc.
    change ([125] ++ rest) with (125 :: rest).
    assert (Hhead : exists tl, J ++ 125 :: rest = 34 :: tl).
    { subst J. destruct ms as [|kv2 ms].
      - change (join sep (List.map member [(k1, v1)]))
          with (member (k1, v1)).
        rewrite member_eq. simpl. eauto.
      - change (List.map member ((k1, v1) :: kv2 :: ms))
          with (member (k1, v1) :: member kv2 :: List.map member ms).
        rewrite join_cons2, member_eq. simpl. eauto. }
    destruct Hhead as (tl & E).
    assert (Hskip : skip_ws (J ++ 125 :: rest) = 34 :: tl)
      by (rewrite E; reflexivity).
    assert (Hlen' : (List.length J + 1 < fuel)%nat).
    { change (List.length (123 :: J ++ [125]))
        with (S (List.length (J ++ [125]))) in Hlen.
      rewrite List.length_app in Hlen.
      change (List.length [125]) with 1%nat in Hlen. lia. }
    rewrite Hskip. subst J.
    change (34 =? 125) with false. cbv iota.
    rewrite IHm.
    + rewrite dict_of_pairs_distinct; [reflexivity|exact Hd].
    + exact Hwf.
    + exact Hfit.
    + exact Hlen'.
Qed.

Lemma items_step fuel :
  value_ok fuel -> items_ok fuel -> items_ok (S fuel).
Proof.
  intros IHv IHi v vs rest Hwf Hfit Hlen.
  change (forallb wf (v :: vs)) with (wf v && forallb wf vs) in Hwf.
  apply andb_prop in Hwf as [Hv Hvs].
  change (forallb ints_fit (v :: vs))
    with (ints_fit v && forallb ints_fit vs) in Hfit.
  apply andb_prop in Hfit as [Hfv Hfvs].
  rewrite parse_items_step.
  destruct vs as [|v2 vs].
  - change (join sep (List.map dumps [v])) with (dumps v) in *.
    rewrite IHv by (auto; lia). reflexivity.
  - change (List.map dumps (v :: v2 :: vs))
      with (dumps v :: dumps v2 :: List.map dumps vs) in *.
    rewrite length_join_cons2 in Hlen.
    rewrite join_cons2, <- app_assoc.
    change ((44 :: 32 :: join sep (dumps v2 :: List.map dumps vs))
            ++ 93 :: rest)
      with (44 :: 32 :: join sep (dumps v2 :: List.map dumps vs)
               ++ 93 :: rest).
    rewrite IHv by (auto; lia).
    rewrite skip_ws_head by reflexivity.
    change (44 =? 44) with true. cbv iota.
    rewrite parse_items_space.
    change (dumps v2 :: List.map dumps vs) with (List.map dumps (v2 :: vs)).
    rewrite IHi; [reflexivity|exact Hvs|exact Hfvs|].
    change (List.map dumps (v2 :: vs)) with (dumps v2 :: List.map dumps vs).
    lia.
Qed.

Lemma members_step fuel :
  value_ok fuel -> members_ok fuel -> members_ok (S fuel).
Proof.
  intros IHv IHm [k v] kvs rest Hwf Hfit Hlen.
  change (forallb wf_member ((k, v) :: kvs))
    with ((wf_str k && wf v) && forallb wf_member kvs) in Hwf.
  apply andb_prop in Hwf as [Hkv Hkvs].
  apply andb_prop in Hkv as [Hk Hv].
  change (forallb (fun kv => ints_fit (snd kv)) ((k, v) :: kvs))
    with (ints_fit v && forallb (fun kv => ints_fit (snd kv)) kvs) in Hfit.
  apply andb_prop in Hfit as [Hfv Hfkvs].
  destruct kvs as [|kv2 kvs].
  - change (join sep (List.map member [(k, v)])) with (member (k, v)) in *.
    rewrite member_eq in *.
    change ((34 :: flat_map escape_char k ++ 34 :: 58 :: 32 :: dumps v)
            ++ 125 :: rest)
      with (34 :: (flat_map escape_char k ++ 34 :: 58 :: 32 :: dumps v)
               ++ 125 :: rest).
    rewrite parse_members_step, <- app_assoc.
    change ((34 :: 58 :: 32 :: dumps v) ++ 125 :: rest)
      with (34 :: 58 :: 32 :: dumps v ++ 125 :: rest).
    rewrite scanstring_escaped by assumption.
    rewrite skip_ws_head by reflexivity.
    change (58 =? 58) with true. cbv iota.
    rewrite parse_value_space.
    change (List.length
              (34 :: flat_map escape_char k ++ 34 :: 58 :: 32 :: dumps v))
      with (S (List.length
                 (flat_map escape_char k ++ 34 :: 58 :: 32 :: dumps v)))
      in Hlen.
    rewrite List.length_app in Hlen.
    change (List.length (34 :: 58 :: 32 :: dumps v))
      with (S (S (S (List.length (dumps v))))) in Hlen.
    rewrite IHv by (auto; lia). reflexivity.
  - change (List.map member ((k, v) :: kv2 :: kvs))
      with (member (k, v) :: member kv2 :: List.map member kvs) in *.
    rewrite length_join_cons2 in Hlen.
    rewrite join_cons2, member_eq in *.
    set (J := join sep (member kv2 :: List.map member kvs)) in *.
    change ((34 :: flat_map escape_char k ++ 34 :: 58 :: 32 :: dumps v)
            ++ 44 :: 32 :: J)
      with (34 :: (flat_map escape_char k ++ 34 :: 58 :: 32 :: dumps v)
               ++ 44 :: 32 :: J).
    change ((34 :: (flat_map escape_char k ++ 34 :: 58 :: 32 :: dumps v)
                ++ 44 :: 32 :: J) ++ 125 :: rest)
      with (34 :: ((flat_map escape_char k ++ 34 :: 58 :: 32 :: dumps v)
                   ++ 44 :: 32 :: J) ++ 125 :: rest).
    rewrite parse_members_step, <- !app_assoc.
    change ((34 :: 58 :: 32 :: dumps v) ++ (44 :: 32 :: J) ++ 125 :: rest)
      with (34 :: 58 :: 32 :: dumps v ++ 44 :: 32 :: J ++ 125 :: rest).
    rewrite scanstring_escaped by assumption.
    rewrite skip_ws_head by reflexivity.
    change (58 =? 58) with true. cbv iota.
    rewrite parse_value_space.
    change (List.length
              (34 :: flat_map escape_char k ++ 34 :: 58 :: 32 :: dumps v))
      with (S (List.length
                 (flat_map escape_char k ++ 34 :: 58 :: 32 :: dumps v)))
      in Hlen.
    rewrite List.length_app in Hlen.
    change (List.length (34 :: 58 :: 32 :: dumps v))
      with (S (S (S (List.length (dumps v))))) in Hlen.
    rewrite IHv by (auto; lia).
    rewrite skip_ws_head by reflexivity.
    change (44 =? 44) with true. cbv iota.
    rewrite parse_members_space. subst J.
    change (member kv2 :: List.map member kvs)
      with (List.map member (kv2 :: kvs)) in *.
    rewrite IHm; [reflexivity|exact Hkvs|exact Hfkvs|lia].
Qed.

Lemma decode_ok fuel : value_ok fuel /\ items_ok fuel /\ members_ok fuel.
Proof.
  induction fuel as [|fuel (IHv & IHi & IHm)].
  - repeat split; red; intros; lia.
  - repeat split.
    + now apply value_step.
    + now apply items_step.
    + now apply members_step.
Qed.

(** Parsing the text of [v] gives [v] back, for every value that is well
    formed and whose integers fit. *)
Lemma loads_dumps v :
  wf v = true -> ints_fit v = true -> loads (dumps v) = Some v.
Proof.
  intros Hwf Hfit. unfold loads.
  destruct (decode_ok (S (List.length (dumps v)))) as (Hv & _ & _).
  specialize (Hv v [] Hwf Hfit (Nat.lt_succ_diag_r _) eq_refl).
  rewrite List.app_nil_r in Hv. now rewrite Hv.
Qed.

End JsonFacts.


(** ** The tools *)

Arguments dumps : simpl never.
Arguments PyInt.fits : simpl never.
Arguments PyInt.str : simpl never.
Arguments PyInt.min : simpl never.
Arguments PyInt.decimal : simpl never.

Section ToolFacts.

Variable network : list request -> request -> reply.

(** The requests on record once [m] has run from [st]. *)
Definition outbound {A} (m : M A) (st : state) : list request :=
  sent (snd (m st)).

(** The value of a query parameter of a request, if it has that parameter. *)
Definition query (r : request) (k : pystr) : option pystr :=
  match params r with
  | Some ps => dict_get ps k
  | None => None
  end.

(** The serialization of an error object never fails: it holds no
    integer. *)
Lemma json_dumps_error e :
  json_dumps (error_response e) = Ok (dumps (error_response e)).
Proof. reflexivity. Qed.

(** The text a tool returns for the outcome of its client operation:
    [json.dumps] of the decoded body, or of the error object when the
    operation raised or the body cannot be serialized. *)
Definition text_of (r : result json) : pystr :=
  match r with
  | Ok v =>
      match json_dumps v with
      | Ok text => text
      | Raise e => dumps (error_response e)
      end
  | Raise e => dumps (error_response e)
  end.

Ltac unfold_server :=
  unfold outbound, run_tool, client_operation,
    slack_list_channels, slack_post_message, slack_reply_to_thread,
    slack_add_reaction, slack_get_channel_history, slack_get_thread_replies,
    slack_get_users, slack_get_user_profile,
    get_channels, post_message, post_reply, add_reaction,
    get_channel_history, get_thread_replies, get_users, get_user_profile,
    client_get, client_post, http, response_json, on_exception, raise_if,
    try_except, bind, ret, raise, read_global, eval.

Ltac split_truthy :=
  repeat match goal with
         | H : context [truthy ?s] |- _ =>
             is_var s; destruct s; simpl in H; try discriminate H
         end.

Ltac split_args :=
  repeat match goal with
         | |- context [truthy ?s] => is_var s; destruct s
         | |- context [with_cursor _ ?c] => is_var c; destruct c
         end.

Ltac by_str :=
  repeat match goal with
         | |- context [PyInt.str ?z] => destruct (PyInt.str z); cbn
         end.

Ltac by_reply :=
  repeat match goal with
         | |- context [network ?l ?r] =>
             destruct (network l r) as [[[?|?]]|?]; cbn
         end.

Ltac by_dumps :=
  repeat match goal with
         | |- context [json_dumps ?v] =>
             first [ rewrite (json_dumps_error _)
                   | destruct (json_dumps v); cbn ]
         end.

(** A tool whose required arguments are all non-empty runs its client
    operation and turns the outcome into text. *)
Lemma run_tool_present c st :
  required_present c = true ->
  run_tool network c st
  = (Ok (text_of (fst (client_operation network c st))),
     snd (client_operation network c st)).
Proof.
  intros H. destruct c; simpl in H; split_truthy;
    unfold_server; cbn; by_str; by_reply; unfold text_of;
    by_dumps; reflexivity.
Qed.

(** The message of the presence check of each tool. *)
Definition validation_message (c : tool_call) : pystr :=
  match c with
  | PostMessage _ _ =>
      py "Missing required arguments: channel_id and text"
  | ReplyToThread _ _ _ =>
      py "Missing required arguments: channel_id, thread_ts, and text"
  | AddReaction _ _ _ =>
      py "Missing required arguments: channel_id, timestamp, and reaction"
  | GetChannelHistory _ _ =>
      py "Missing required argument: channel_id"
  | GetThreadReplies _ _ =>
      py "Missing required arguments: channel_id and thread_ts"
  | GetUserProfile _ =>
      py "Missing required argument: user_id"
  | ListChannels _ _ | GetUsers _ _ => []
  end.

(** The message of the local error of a tool. *)
Definition is_missing_message (msg : pystr) : Prop :=
  exists names,
    msg = py "Missing required argument: " ++ names
    \/ msg = py "Missing required arguments: " ++ names.

(** A tool with an empty required argument answers with its local error and
    leaves the state as it was: nothing is sent. *)
Lemma run_tool_missing c st :
  required_present c = false ->
  is_missing_message (validation_message c)
  /\ run_tool network c st
     = (Ok (dumps (JObj [(py "error", JStr (validation_message c))])), st).
Proof.
  intros H.
  destruct c; simpl in H; try discriminate H;
    (split;
     [eexists; ((left; reflexivity) || (right; reflexivity))
     |unfold_server; split_args; try discriminate H; reflexivity]).
Qed.

(** A tool whose limit has too many digits answers with the error of the
    conversion and sends nothing. *)
Lemma run_tool_limit c st :
  required_present c = true ->
  limit_fits c = false ->
  run_tool network c st
  = (Ok (dumps (error_response PyInt.too_many_digits)), st).
Proof.
  intros H Hl. destruct c; simpl in H, Hl; try discriminate Hl;
    split_truthy; unfold_server; cbn;
    rewrite (PyIntFacts.str_raises _ Hl); reflexivity.
Qed.

(** The reply to the one request of a tool, as text. *)
Definition text_of_reply (rp : reply) : pystr :=
  match rp with
  | Replied resp => text_of (body_json resp)
  | Failed e => dumps (error_response e)
  end.

(** A tool whose arguments pass sends one request, and returns the text of
    the reply to it. *)
Lemma run_by_reply c st :
  required_present c = true ->
  limit_fits c = true ->
  exists r,
    run_tool network c st
    = (Ok (text_of_reply (network (sent st) r)),
       State (glob st) (sent st ++ [r])).
Proof.
  intros H Hl.
  destruct c; simpl in H, Hl; split_truthy;
    unfold_server; cbn;
    rewrite ?(PyIntFacts.str_fits _ Hl); cbn;
    match goal with
    | |- context [network (sent st) ?q] => exists q
    end;
    unfold text_of_reply, text_of; by_reply; by_dumps; reflexivity.
Qed.

(** What a tool does to the state: the globals stay as they are, and at most
    one request is sent, under the headers of the client. *)
Lemma run_tool_effect c st :
  glob (snd (run_tool network c st)) = glob st
  /\ (sent (snd (run_tool network c st)) = sent st
      \/ exists r,
           sent (snd (run_tool network c st)) = sent st ++ [r]
           /\ headers r = bot_headers (slack_client (glob st))).
Proof.
  destruct c; unfold_server; unfold with_cursor; split_args; cbn;
    by_str; by_reply; by_dumps; (split; [reflexivity|]);
    ((left; reflexivity) || (right; eexists; split; reflexivity)).
Qed.

Lemma invoke_effect i st :
  glob (snd (invoke network i st)) = glob st
  /\ (sent (snd (invoke network i st)) = sent st
      \/ exists r,
           sent (snd (invoke network i st)) = sent st ++ [r]
           /\ headers r = bot_headers (slack_client (glob st))).
Proof.
  unfold invoke. destruct (bind_arguments i) as [c|e].
  - apply run_tool_effect.
  - cbn. auto.
Qed.

(** Serving any calls keeps the globals, and every request sent meanwhile
    carries the headers of the client. *)
Lemma serve_effect calls st :
  glob (snd (serve network calls st)) = glob st
  /\ forall r,
       In r (sent (snd (serve network calls st))) ->
       In r (sent st) \/ headers r = bot_headers (slack_client (glob st)).
Proof.
  revert st. induction calls as [|i calls IH]; intros st; cbn [serve].
  - cbn. auto.
  - destruct (invoke_effect i st) as [Hg Hs].
    destruct (invoke network i st) as [x st1]. cbn [snd] in *.
    specialize (IH st1). destruct (serve network calls st1) as [rs st2].
    cbn [snd] in *. destruct IH as [IHg IHs]. split; [congruence|].
    intros r Hr. destruct (IHs r Hr) as [Hin|Hh].
    + destruct Hs as [Hs|(r0 & Hs & Hh0)]; rewrite Hs in Hin; auto.
      apply in_app_or in Hin as [Hin|[<-|[]]]; auto.
    + right. now rewrite <- Hg.
Qed.

End ToolFacts.

(** ** Requests *)

Ltac run_server :=
  unfold outbound, run_tool, client_operation,
    slack_list_channels, slack_post_message, slack_reply_to_thread,
    slack_add_reaction, slack_get_channel_history, slack_get_thread_replies,
    slack_get_users, slack_get_user_profile,
    get_channels, post_message, post_reply, add_reaction,
    get_channel_history, get_thread_replies, get_users, get_user_profile,
    client_get, client_post, http, response_json, on_exception, raise_if,
    try_except, bind, ret, raise, read_global, eval.

Ltac nonempty_arguments H :=
  repeat match type of H with
         | context [truthy ?s] =>
             is_var s; destruct s; simpl in H; try discriminate H
         end.

Ltac any_arguments :=
  repeat match goal with
         | |- context [truthy ?s] => is_var s; destruct s
         | |- context [with_cursor _ ?c] => is_var c; destruct c
         | H : context [truthy ?s] |- _ => is_var s; destruct s
         | H : context [with_cursor _ ?c] |- _ => is_var c; destruct c
         end.

Ltac any_str :=
  repeat match goal with
         | |- context [PyInt.str ?z] => destruct (PyInt.str z); cbn
         | H : context [PyInt.str ?z] |- _ => destruct (PyInt.str z); cbn in H
         end.

Ltac any_reply network :=
  repeat match goal with
         | |- context [network ?l ?r] =>
             destruct (network l r) as [[[?|?]]|?]; cbn
         | H : context [network ?l ?r] |- _ =>
             destruct (network l r) as [[[?|?]]|?]; cbn in H
         end.

Ltac any_dumps :=
  repeat match goal with
         | |- context [json_dumps ?v] =>
             first [ rewrite (json_dumps_error _)
                   | destruct (json_dumps v); cbn ]
         | H : context [json_dumps ?v] |- _ =>
             first [ rewrite (json_dumps_error _) in H
                   | destruct (json_dumps v); cbn in H ]
         end.

Section RequestFacts.

Variable network : list request -> request -> reply.

(** The request each listing tool sends, when the capped limit has a
    decimal text. *)
Lemma list_channels_request limit cursor st :
  PyInt.fits (PyInt.min limit 200) = true ->
  outbound (slack_list_channels network limit cursor) st
  = sent st
    ++ [ Request GET (py "https://slack.com/api/conversations.list")
           (bot_headers (slack_client (glob st)))
           (Some (with_cursor
                    [ (py "types", py "public_channel");
                      (py "exclude_archived", py "true");
                      (py "limit", PyInt.decimal (PyInt.min limit 200));
                      (py "team_id", team_id (glob st)) ]
                    cursor))
           None ].
Proof.
  intros H. run_server. cbn. rewrite (PyIntFacts.str_fits _ H). cbn.
  any_reply network; any_dumps; reflexivity.
Qed.

Lemma get_users_request limit cursor st :
  PyInt.fits (PyInt.min limit 200) = true ->
  outbound (slack_get_users network limit cursor) st
  = sent st
    ++ [ Request GET (py "https://slack.com/api/users.list")
           (bot_headers (slack_client (glob st)))
           (Some (with_cursor
                    [ (py "limit", PyInt.decimal (PyInt.min limit 200));
                      (py "team_id", team_id (glob st)) ]
                    cursor))
           None ].
Proof.
  intros H. run_server. cbn. rewrite (PyIntFacts.str_fits _ H). cbn.
  any_reply network; any_dumps; reflexivity.
Qed.

(** The request the history tool sends for a channel that is named and a
    limit that has a decimal text. *)
Lemma channel_history_request channel_id limit st :
  truthy channel_id = true ->
  PyInt.fits limit = true ->
  outbound (slack_get_channel_history network channel_id limit) st
  = sent st
    ++ [ Request GET (py "https://slack.com/api/conversations.history")
           (bot_headers (slack_client (glob st)))
           (Some [ (py "channel", channel_id);
                   (py "limit", PyInt.decimal limit) ])
           None ].
Proof.
  intros H Hl. destruct channel_id; [discriminate H|].
  run_server. cbn. rewrite (PyIntFacts.str_fits _ Hl). cbn.
  any_reply network; any_dumps; reflexivity.
Qed.

(** [d[k] = v] then [d.get(k')]. *)
Lemma dict_get_set {V} (d : list (pystr * V)) k v k' :
  dict_get (dict_set d k v) k'
  = if PyStr.eqb k' k then Some v else dict_get d k'.
Proof.
  induction d as [|[k0 v0] d IH]; simpl.
  - reflexivity.
  - destruct (PyStr.eqb k k0) eqn:E; simpl.
    + apply PyStr.eqb_eq in E. subst k0.
      destruct (PyStr.eqb k' k); reflexivity.
    + rewrite IH. destruct (PyStr.eqb k' k0) eqn:E0;
        destruct (PyStr.eqb k' k) eqn:E1; try reflexivity.
      apply PyStr.eqb_eq in E0, E1. subst.
      rewrite PyStr.eqb_refl in E. discriminate E.
Qed.

(** A cursor that is given and not empty becomes the [cursor] parameter. *)
Lemma with_cursor_given ps c :
  truthy c = true -> dict_get (with_cursor ps (Some c)) (py "cursor") = Some c.
Proof.
  intros H. unfold with_cursor. rewrite H, dict_get_set.
  now rewrite PyStr.eqb_refl.
Qed.

(** No cursor, or an empty one, leaves the parameters as they are. *)
Lemma with_cursor_none ps cursor :
  truthy_opt cursor = false -> with_cursor ps cursor = ps.
Proof.
  destruct cursor as [c|]; simpl; [|reflexivity].
  intros H. now rewrite H.
Qed.

(** The cursor touches no other parameter. *)
Lemma with_cursor_other ps cursor k :
  PyStr.eqb k (py "cursor") = false ->
  dict_get (with_cursor ps cursor) k = dict_get ps k.
Proof.
  intros H. destruct cursor as [c|]; simpl; [|reflexivity].
  destruct (truthy c); [|reflexivity].
  now rewrite dict_get_set, H.
Qed.

(** A listing whose capped limit has too many digits sends nothing. *)
Lemma listing_sends_nothing limit cursor st :
  PyInt.fits (PyInt.min limit 200) = false ->
  outbound (slack_list_channels network limit cursor) st = sent st
  /\ outbound (slack_get_users network limit cursor) st = sent st.
Proof.
  intros H. split.
  - change (sent (snd (run_tool network (ListChannels limit cursor) st))
            = sent st).
    now rewrite (run_tool_limit network (ListChannels limit cursor) st
                   eq_refl H).
  - change (sent (snd (run_tool network (GetUsers limit cursor) st))
            = sent st).
    now rewrite (run_tool_limit network (GetUsers limit cursor) st
                   eq_refl H).
Qed.

End RequestFacts.

Lemma app_one_inv {A} (l : list A) (x y : A) : l ++ [x] = l ++ [y] -> x = y.
Proof.
  intros H. apply app_inv_head in H. now injection H.
Qed.

Lemma app_none_inv {A} (l : list A) (y : A) : l = l ++ [y] -> False.
Proof.
  intros H. rewrite <- (List.app_nil_r l) in H at 1.
  apply app_inv_head in H. discriminate H.
Qed.

(** ** Sample data *)

Module Sample.

(** A remote service that answers every request with the body [R]. *)
Definition stub (R : json) : list request -> request -> reply :=
  fun _ _ => Replied (Response (Ok R)).

(** A network on which every call fails. *)
Definition unreachable : list request -> request -> reply :=
  fun _ _ =>
    Failed (Exn (py "ConnectError") (py "All connection attempts failed")).

(** The body [{"ok": true, "ts": "100.1"}]. *)
Definition posted : json :=
  JObj [ (py "ok", JBool true); (py "ts", JStr (py "100.1")) ].

Definition environ : list (pystr * pystr) :=
  [ (py "SLACK_BOT_TOKEN", py "xoxb-1"); (py "SLACK_TEAM_ID", py "T1") ].

(** The state right after a start with [environ]. *)
Definition started : state :=
  State (Globals (py "xoxb-1") (py "T1") (SlackClient_init (py "xoxb-1"))) [].

End Sample.

(** * The claims of the specification *)




(** C3, as stated, fails for a call that leaves out a required argument:
    [get_user_profile()] raises [TypeError] when its arguments are bound,
    outside the [try] of the tool, so the call ends with an exception and not
    with a text result. *)
Lemma unbound_call_counterexample :
  ~ exists text st',
      invoke Sample.unreachable (InvokeGetUserProfile None) Sample.started
      = (Ok text, st').
Proof.
  intros (text & st' & H). vm_compute in H. discriminate H.
Qed.

(** C3, amended: for every tool called with an argument for each required
    parameter, an exception raised by the client operation (while the request
    is built, by the network call, or by decoding the response) is caught and
    turned into the text of [{"error": str(e)}], and the call ends with a
    text result, never with an exception. *)
Theorem tool_catches_client_errors :
  forall network st,
    (forall c e st',
        required_present c = true ->
        client_operation network c st = (Raise e, st') ->
        run_tool network c st
        = (Ok (dumps (JObj [(py "error", JStr (str_exn e))])), st'))
    /\ (forall c, exists text st', run_tool network c st = (Ok text, st'))
    /\ (forall i,
           required_supplied i = true ->
           exists text st', invoke network i st = (Ok text, st')).
Proof.
  intros network st.
  assert (Hrun : forall c, exists text st',
               run_tool network c st = (Ok text, st')).
  { intros c. destruct (required_present c) eqn:Hargs.
    - rewrite run_tool_present by assumption. eauto.
    - destruct (run_tool_missing network c st Hargs) as (_ & H). eauto. }
  split; [|split].
  - intros c e st' Hargs Hop. now rewrite run_tool_present, Hop.
  - exact Hrun.
  - intros i Hi. unfold invoke.
    destruct i as [l k|[a|] [b|]|[a|] [b|] [d|]|[a|] [b|] [d|]
                   |[a|] l|[a|] [b|]|l k|[a|]];
      try discriminate Hi; cbn [bind_arguments]; apply Hrun.
Qed.

Lemma tool_catches_client_errors_witness :
  run_tool Sample.unreachable (GetUserProfile (py "U1")) Sample.started
  = (Ok (dumps (JObj [(py "error",
                       JStr (py "All connection attempts failed"))])),
     snd (client_operation Sample.unreachable (GetUserProfile (py "U1"))
            Sample.started)).
Proof.
  apply (proj1 (tool_catches_client_errors
                  Sample.unreachable Sample.started)
               (GetUserProfile (py "U1"))
               (Exn (py "ConnectError") (py "All connection attempts failed")));
    reflexivity.
Defined.

(** C7: [post_message("C123", "hello")] against a remote service that answers
    with the body [{"ok": true, "ts": "100.1"}] returns exactly the text
    [{"ok": true, "ts": "100.1"}], after one POST to [chat.postMessage]. *)
Theorem post_message_scenario :
  forall st,
    slack_post_message (Sample.stub Sample.posted) (py "C123") (py "hello") st
    = (Ok (py "{" ++ quoted (py "ok") ++ py ": true, "
           ++ quoted (py "ts") ++ py ": " ++ quoted (py "100.1") ++ py "}"),
       State (glob st)
             (sent st
              ++ [ Request POST (py "https://slack.com/api/chat.postMessage")
                     (bot_headers (slack_client (glob st))) None
                     (Some (JObj [ (py "channel", JStr (py "C123"));
                                   (py "text", JStr (py "hello")) ])) ])).
Proof. reflexivity. Qed.

(** C2, as stated, fails where a required argument is absent: the call
    [reply_to_thread(channel_id="C123", text="hi")], which leaves [thread_ts]
    out, cannot be bound to the signature of the tool; it raises [TypeError]
    before the body and its [try] are entered, so no text result of the shape
    [{"error": ...}] comes back. *)
Lemma absent_argument_counterexample :
  ~ exists text,
      fst (invoke (Sample.stub Sample.posted)
             (InvokeReplyToThread (Some (py "C123")) None (Some (py "hi")))
             Sample.started)
      = Ok text.
Proof.
  intros [text H]. vm_compute in H. discriminate H.
Qed.

(** C2, amended: a tool called with all its required arguments, one of which
    is empty, returns the text of [{"error": msg}], where [msg] is the
    message of the presence check of that tool ([validation_message]: it
    starts with [Missing required argument] and names all the required
    arguments of the tool), and sends nothing (the state, with the requests
    on record, is unchanged); [reply_to_thread("C123", "", "hi")] returns the
    text of
    [{"error": "Missing required arguments: channel_id, thread_ts, and text"}];
    and every call that leaves a required argument out raises [TypeError]
    when its arguments are bound, also without sending anything. *)
Theorem empty_argument_local_error :
  forall network st,
    (forall c,
        required_present c = false ->
        is_missing_message (validation_message c)
        /\ run_tool network c st
           = (Ok (dumps (JObj [(py "error", JStr (validation_message c))])),
              st))
    /\ run_tool network (ReplyToThread (py "C123") [] (py "hi")) st
       = (Ok (dumps (JObj
                [(py "error",
                  JStr (py "Missing required arguments: channel_id, thread_ts, and text"))])),
          st)
    /\ (forall i,
           required_supplied i = false ->
           exists msg, invoke network i st = (Raise (TypeError msg), st)).
Proof.
  intros network st. split; [|split].
  - intros c Hc. now apply run_tool_missing.
  - reflexivity.
  - intros i Hi. unfold invoke.
    destruct i as [l k|[a|] [b|]|[a|] [b|] [d|]|[a|] [b|] [d|]
                   |[a|] l|[a|] [b|]|l k|[a|]];
      try discriminate Hi; cbn [bind_arguments];
      eexists; reflexivity.
Qed.

Lemma empty_argument_local_error_witness :
  (is_missing_message (validation_message (GetThreadReplies (py "C123") []))
   /\ run_tool Sample.unreachable (GetThreadReplies (py "C123") [])
               Sample.started
      = (Ok (dumps (JObj [(py "error",
                           JStr (validation_message
                                   (GetThreadReplies (py "C123") [])))])),
         Sample.started))
  /\ exists msg,
       invoke Sample.unreachable
              (InvokeAddReaction (Some (py "C123")) None None) Sample.started
       = (Raise (TypeError msg), Sample.started).
Proof.
  destruct (empty_argument_local_error Sample.unreachable Sample.started)
    as (Hempty & _ & Habsent).
  split.
  - apply Hempty. reflexivity.
  - apply Habsent. reflexivity.
Defined.

(** C4: [list_channels] and [get_users] send [limit=200] for every limit
    above 200; a call that supplies no limit sends [limit=100] for
    [list_channels] and [get_users] and [limit=10] for
    [get_channel_history]. *)
Theorem limit_cap_and_defaults :
  forall network st,
    (forall limit cursor,
        (200 < limit)%Z ->
        exists r,
          outbound (slack_list_channels network limit cursor) st
          = sent st ++ [r]
          /\ query r (py "limit") = Some (py "200"))
    /\ (forall limit cursor,
           (200 < limit)%Z ->
           exists r,
             outbound (slack_get_users network limit cursor) st
             = sent st ++ [r]
             /\ query r (py "limit") = Some (py "200"))
    /\ (forall cursor,
           exists r,
             outbound (invoke network (InvokeListChannels None cursor)) st
             = sent st ++ [r]
             /\ query r (py "limit") = Some (py "100"))
    /\ (forall cursor,
           exists r,
             outbound (invoke network (InvokeGetUsers None cursor)) st
             = sent st ++ [r]
             /\ query r (py "limit") = Some (py "100"))
    /\ (forall channel_id,
           truthy channel_id = true ->
           exists r,
             outbound (invoke network
                         (InvokeGetChannelHistory (Some channel_id) None)) st
             = sent st ++ [r]
             /\ query r (py "limit") = Some (py "10")).
Proof.
  intros network st. repeat split.
  - intros limit cursor H. eexists. split.
    + apply list_channels_request.
      rewrite PyIntFacts.min_gt by assumption. reflexivity.
    + unfold query. cbn [params]. rewrite with_cursor_other by reflexivity.
      rewrite PyIntFacts.min_gt by assumption. reflexivity.
  - intros limit cursor H. eexists. split.
    + apply get_users_request.
      rewrite PyIntFacts.min_gt by assumption. reflexivity.
    + unfold query. cbn [params]. rewrite with_cursor_other by reflexivity.
      rewrite PyIntFacts.min_gt by assumption. reflexivity.
  - intros cursor. eexists. split.
    + unfold invoke. cbn [bind_arguments run_tool].
      apply list_channels_request. reflexivity.
    + unfold query. cbn [params]. rewrite with_cursor_other by reflexivity.
      reflexivity.
  - intros cursor. eexists. split.
    + unfold invoke. cbn [bind_arguments run_tool].
      apply get_users_request. reflexivity.
    + unfold query. cbn [params]. rewrite with_cursor_other by reflexivity.
      reflexivity.
  - intros channel_id H. eexists. split.
    + unfold invoke. cbn [bind_arguments run_tool].
      apply channel_history_request; [assumption|reflexivity].
    + reflexivity.
Qed.

Lemma limit_cap_and_defaults_witness :
  (exists r,
      outbound (slack_list_channels Sample.unreachable 1000 None)
               Sample.started
      = sent Sample.started ++ [r]
      /\ query r (py "limit") = Some (py "200"))
  /\ (exists r,
         outbound (invoke Sample.unreachable
                     (InvokeGetChannelHistory (Some (py "C123")) None))
                  Sample.started
         = sent Sample.started ++ [r]
         /\ query r (py "limit") = Some (py "10")).
Proof.
  destruct (limit_cap_and_defaults Sample.unreachable Sample.started)
    as (Hcap & _ & _ & _ & Hhist).
  split.
  - apply Hcap. reflexivity.
  - apply Hhist. reflexivity.
Defined.

(** C5, as stated, fails for a cursor that is passed and empty:
    [list_channels(100, "")] sends a request without the [cursor] parameter,
    not one that includes the value passed. *)
Lemma empty_cursor_counterexample :
  ~ exists r,
      outbound (slack_list_channels (Sample.stub Sample.posted) 100
                                    (Some []))
               Sample.started
      = sent Sample.started ++ [r]
      /\ query r (py "cursor") = Some [].
Proof.
  intros (r & Hs & Hq).
  rewrite (list_channels_request _ 100 (Some []) Sample.started eq_refl)
    in Hs.
  apply app_one_inv in Hs. subst r.
  vm_compute in Hq. discriminate Hq.
Qed.

(** C5, amended: for [list_channels] and [get_users], whenever the request is
    sent (the capped limit has a decimal text, which is so for every limit
    above [- 10 ^ 4300]), a cursor that is passed and not empty is the
    [cursor] parameter of the request; with no cursor, or with an empty one,
    the request has no [cursor] parameter at all. *)
Theorem cursor_parameter :
  forall network st limit,
    PyInt.fits (PyInt.min limit 200) = true ->
    (forall c,
        truthy c = true ->
        (exists r,
            outbound (slack_list_channels network limit (Some c)) st
            = sent st ++ [r]
            /\ query r (py "cursor") = Some c)
        /\ (exists r,
               outbound (slack_get_users network limit (Some c)) st
               = sent st ++ [r]
               /\ query r (py "cursor") = Some c))
    /\ (forall cursor,
           truthy_opt cursor = false ->
           (exists r,
               outbound (slack_list_channels network limit cursor) st
               = sent st ++ [r]
               /\ query r (py "cursor") = None)
           /\ (exists r,
                  outbound (slack_get_users network limit cursor) st
                  = sent st ++ [r]
                  /\ query r (py "cursor") = None)).
Proof.
  intros network st limit Hl. split.
  - intros c Hc. split; eexists.
    + split; [apply list_channels_request; exact Hl|].
      unfold query. cbn [params]. now apply with_cursor_given.
    + split; [apply get_users_request; exact Hl|].
      unfold query. cbn [params]. now apply with_cursor_given.
  - intros cursor Hc. split; eexists.
    + split; [apply list_channels_request; exact Hl|].
      unfold query. cbn [params]. rewrite with_cursor_none by assumption.
      reflexivity.
    + split; [apply get_users_request; exact Hl|].
      unfold query. cbn [params]. rewrite with_cursor_none by assumption.
      reflexivity.
Qed.

Lemma cursor_parameter_witness :
  (exists r,
      outbound (slack_list_channels Sample.unreachable 100
                                    (Some (py "dXNlcjpVMDYx")))
               Sample.started
      = sent Sample.started ++ [r]
      /\ query r (py "cursor") = Some (py "dXNlcjpVMDYx"))
  /\ (exists r,
         outbound (slack_get_users Sample.unreachable 100 None)
                  Sample.started
         = sent Sample.started ++ [r]
         /\ query r (py "cursor") = None).
Proof.
  destruct (@cursor_parameter Sample.unreachable Sample.started 100 eq_refl)
    as (Hgiven & Hnone).
  split.
  - apply (proj1 (Hgiven (py "dXNlcjpVMDYx") eq_refl)).
  - apply (proj2 (Hnone None eq_refl)).
Defined.

(** ** The limit of the history *)

Section LimitFacts.

Variable network : list request -> request -> reply.

(** A history call whose limit has too many digits for [str] sends nothing
    and returns the error of the conversion. *)
Lemma history_limit_refused channel_id limit st :
  truthy channel_id = true ->
  PyInt.fits limit = false ->
  slack_get_channel_history network channel_id limit st
  = (Ok (dumps (error_response PyInt.too_many_digits)), st).
Proof.
  intros H Hl.
  exact (run_tool_limit network (GetChannelHistory channel_id limit) st H Hl).
Qed.

(** So does a listing whose capped limit has too many digits. *)
Lemma listing_limit_refused limit cursor st :
  PyInt.fits (PyInt.min limit 200) = false ->
  slack_list_channels network limit cursor st
  = (Ok (dumps (error_response PyInt.too_many_digits)), st)
  /\ slack_get_users network limit cursor st
     = (Ok (dumps (error_response PyInt.too_many_digits)), st).
Proof.
  intros Hl. split.
  - exact (run_tool_limit network (ListChannels limit cursor) st eq_refl Hl).
  - exact (run_tool_limit network (GetUsers limit cursor) st eq_refl Hl).
Qed.

(** Nothing is on record after a refused history call. *)
Lemma history_sends_nothing channel_id limit st :
  truthy channel_id = true ->
  PyInt.fits limit = false ->
  outbound (slack_get_channel_history network channel_id limit) st = sent st.
Proof.
  intros H Hl. unfold outbound.
  now rewrite (@history_limit_refused channel_id limit st H Hl).
Qed.

End LimitFacts.

(** C9, as stated, fails for an integer of more than 4300 digits:
    [get_channel_history("C123", 10 ** 4300)] sends no request at all, since
    [str(limit)] raises [ValueError] while the parameters are built. *)
Lemma history_limit_counterexample :
  ~ exists r,
      outbound (slack_get_channel_history (Sample.stub Sample.posted)
                  (py "C123") (10 ^ 4300))
               Sample.started
      = sent Sample.started ++ [r].
Proof.
  intros (r & H).
  rewrite (@history_sends_nothing (Sample.stub Sample.posted) (py "C123")
             (10 ^ 4300) Sample.started eq_refl PyIntFacts.not_fits_pow)
    in H.
  exact (@app_none_inv _ _ _ H).
Qed.

(** C9, amended: [get_channel_history] with a channel that is named sends
    every limit that [str] can turn into text, that is every integer below
    [10 ^ 4300] in magnitude, as its decimal text: the parameters of the
    request are exactly [channel] and [limit], nothing is capped, and the
    text reads back as the same integer.  For an integer of more digits
    nothing is sent, and the tool returns the text of the error that [str]
    raised. *)
Theorem history_limit_verbatim :
  forall network st channel_id limit,
    truthy channel_id = true ->
    (PyInt.fits limit = true ->
     (exists r,
         outbound (slack_get_channel_history network channel_id limit) st
         = sent st ++ [r]
         /\ params r = Some [ (py "channel", channel_id);
                              (py "limit", PyInt.decimal limit) ])
     /\ parse_int (PyInt.decimal limit) = Some (limit, []))
    /\ (PyInt.fits limit = false ->
        slack_get_channel_history network channel_id limit st
        = (Ok (dumps (error_response PyInt.too_many_digits)), st))
    /\ (PyInt.fits limit = true <-> (Z.abs limit < 10 ^ 4300)%Z).
Proof.
  intros network st channel_id limit H. split; [|split].
  - intros Hl. split.
    + eexists. split; [now apply channel_history_request|reflexivity].
    + pose proof (PyIntFacts.parse_int_decimal limit [] Hl eq_refl) as Hp.
      now rewrite List.app_nil_r in Hp.
  - intros Hl. now apply history_limit_refused.
  - apply PyIntFacts.fits_iff.
Qed.

Lemma history_limit_verbatim_witness :
  (exists r,
      outbound (slack_get_channel_history Sample.unreachable (py "C123") 5000)
               Sample.started
      = sent Sample.started ++ [r]
      /\ params r = Some [ (py "channel", py "C123");
                           (py "limit", PyInt.decimal 5000) ])
  /\ parse_int (PyInt.decimal 5000) = Some (5000%Z, []).
Proof.
  apply (proj1 (@history_limit_verbatim Sample.unreachable Sample.started
                  (py "C123") 5000 eq_refl)).
  reflexivity.
Defined.

(** C10, as stated, fails for a limit of more than 4300 digits below zero:
    [list_channels(-(10 ** 4300))] issues no network call, since
    [str(min(limit, 200))] raises [ValueError] while the parameters are
    built. *)
Lemma listing_limit_counterexample :
  ~ exists r,
      outbound (slack_list_channels (Sample.stub Sample.posted)
                  (- 10 ^ 4300) None)
               Sample.started
      = sent Sample.started ++ [r].
Proof.
  intros (r & H).
  rewrite (proj1 (@listing_sends_nothing (Sample.stub Sample.posted)
                    (- 10 ^ 4300) None Sample.started
                    PyIntFacts.not_fits_min_opp_pow))
    in H.
  exact (@app_none_inv _ _ _ H).
Qed.

(** C10, amended: [slack_list_channels] and [slack_get_users] have no check
    of their arguments: what they return is always the outcome of the client
    operation (the serialized response, or the error it raised), never a
    validation error of their own.  For every cursor and every limit above
    [- 10 ^ 4300], supplied or left to its default, zero, negative or empty,
    the call sends exactly one request, a GET to the listing endpoint; for a
    limit at or below [- 10 ^ 4300] the client operation raises before it
    sends anything, and the tool returns the text of that error. *)
Theorem listings_always_call :
  forall network st limit cursor,
    (PyInt.fits (PyInt.min (default 100%Z limit) 200) = true ->
     (exists r,
         outbound (invoke network (InvokeListChannels limit cursor)) st
         = sent st ++ [r]
         /\ method r = GET
         /\ url r = py "https://slack.com/api/conversations.list")
     /\ (exists r,
            outbound (invoke network (InvokeGetUsers limit cursor)) st
            = sent st ++ [r]
            /\ method r = GET
            /\ url r = py "https://slack.com/api/users.list"))
    /\ (PyInt.fits (PyInt.min (default 100%Z limit) 200) = false ->
        invoke network (InvokeListChannels limit cursor) st
        = (Ok (dumps (error_response PyInt.too_many_digits)), st)
        /\ invoke network (InvokeGetUsers limit cursor) st
           = (Ok (dumps (error_response PyInt.too_many_digits)), st))
    /\ (forall c,
           (exists l k, c = ListChannels l k \/ c = GetUsers l k) ->
           run_tool network c st
           = (Ok (text_of (fst (client_operation network c st))),
              snd (client_operation network c st)))
    /\ (forall l,
           PyInt.fits (PyInt.min l 200) = true <-> (- 10 ^ 4300 < l)%Z).
Proof.
  intros network st limit cursor. split; [|split; [|split]].
  - intros Hl. split.
    + eexists. split; [|split].
      * unfold invoke. cbn [bind_arguments run_tool].
        apply list_channels_request. exact Hl.
      * reflexivity.
      * reflexivity.
    + eexists. split; [|split].
      * unfold invoke. cbn [bind_arguments run_tool].
        apply get_users_request. exact Hl.
      * reflexivity.
      * reflexivity.
  - intros Hl. unfold invoke. cbn [bind_arguments run_tool].
    now apply listing_limit_refused.
  - intros c (l & k & [->| ->]); now apply run_tool_present.
  - apply PyIntFacts.fits_min_iff.
Qed.

Lemma listings_always_call_witness :
  (exists r,
      outbound (invoke Sample.unreachable
                  (InvokeListChannels (Some (-3)%Z) (Some (Some []))))
               Sample.started
      = sent Sample.started ++ [r]
      /\ method r = GET
      /\ url r = py "https://slack.com/api/conversations.list")
  /\ (exists r,
         outbound (invoke Sample.unreachable
                     (InvokeGetUsers (Some (-3)%Z) (Some (Some []))))
                  Sample.started
         = sent Sample.started ++ [r]
         /\ method r = GET
         /\ url r = py "https://slack.com/api/users.list").
Proof.
  apply (proj1 (listings_always_call Sample.unreachable Sample.started
                  (Some (-3)%Z) (Some (Some [])))).
  reflexivity.
Defined.

(** ** Start-up and the credential *)

Module Startup.

Definition complaint : pystr :=
  py "Please set SLACK_BOT_TOKEN and SLACK_TEAM_ID environment variables".

(** With either variable missing or empty, the module body exits. *)
Lemma startup_missing environ :
  truthy_opt (dict_get environ (py "SLACK_BOT_TOKEN")) = false
  \/ truthy_opt (dict_get environ (py "SLACK_TEAM_ID")) = false ->
  startup environ = Exited [complaint] 1.
Proof.
  unfold startup.
  destruct (dict_get environ (py "SLACK_BOT_TOKEN")) as [token|];
    destruct (dict_get environ (py "SLACK_TEAM_ID")) as [team|];
    try reflexivity.
  simpl truthy_opt. intros [H|H]; rewrite H; try reflexivity.
  now rewrite orb_true_r.
Qed.

(** With both set, the globals are what the environment holds. *)
Lemma startup_configured environ token team :
  dict_get environ (py "SLACK_BOT_TOKEN") = Some token ->
  dict_get environ (py "SLACK_TEAM_ID") = Some team ->
  truthy token = true -> truthy team = true ->
  startup environ
  = Started [py "Starting Slack MCP Server..."]
            (Globals token team (SlackClient_init token)).
Proof.
  intros Ht Hm Htt Htm. unfold startup. now rewrite Ht, Hm, Htt, Htm.
Qed.

(** [needle] is at the front of [hay]. *)
Fixpoint starts_with (needle hay : pystr) : bool :=
  match needle, hay with
  | [], _ => true
  | x :: n, y :: h => (x =? y)%N && starts_with n h
  | _ :: _, [] => false
  end.

(** [needle in hay]. *)
Fixpoint occurs (needle hay : pystr) : bool :=
  starts_with needle hay
  || match hay with
     | [] => false
     | _ :: h => occurs needle h
     end.

End Startup.

(** C8: when the bot credential or the workspace identifier is missing from
    the environment (or empty), the process writes one diagnostic line to the
    error stream and exits with status 1; no tool call is served and no
    request is sent. *)
Theorem startup_requires_configuration :
  forall network environ calls,
    truthy_opt (dict_get environ (py "SLACK_BOT_TOKEN")) = false
    \/ truthy_opt (dict_get environ (py "SLACK_TEAM_ID")) = false ->
    main network environ calls
    = Execution
        [py "Please set SLACK_BOT_TOKEN and SLACK_TEAM_ID environment variables"]
        1 [] [] None
    /\ exit_status (main network environ calls) <> 0%Z.
Proof.
  intros network environ calls H. unfold main.
  rewrite (Startup.startup_missing environ H). split; [reflexivity|].
  discriminate.
Qed.

Lemma startup_requires_configuration_witness :
  main (Sample.stub Sample.posted)
       [(py "SLACK_BOT_TOKEN", py "xoxb-1")]
       [InvokePostMessage (Some (py "C123")) (Some (py "hello"))]
  = Execution
      [py "Please set SLACK_BOT_TOKEN and SLACK_TEAM_ID environment variables"]
      1 [] [] None
  /\ exit_status
       (main (Sample.stub Sample.posted)
             [(py "SLACK_BOT_TOKEN", py "xoxb-1")]
             [InvokePostMessage (Some (py "C123")) (Some (py "hello"))])
     <> 0%Z.
Proof.
  apply (startup_requires_configuration
           (Sample.stub Sample.posted)
           [(py "SLACK_BOT_TOKEN", py "xoxb-1")]
           [InvokePostMessage (Some (py "C123")) (Some (py "hello"))]).
  right. reflexivity.
Defined.

(** C6, as stated, fails for the workspace identifier: the request that
    [post_message("C123", "hello")] sends in a process started with the
    workspace [T1] has no header in which [T1] occurs. *)
Lemma workspace_header_counterexample :
  ~ forall r,
      In r (requests
              (main (Sample.stub Sample.posted) Sample.environ
                 [InvokePostMessage (Some (py "C123")) (Some (py "hello"))])) ->
      exists name value,
        In (name, value) (headers r)
        /\ Startup.occurs (py "T1") value = true.
Proof.
  intros H.
  destruct (H _ (or_introl eq_refl)) as (name & value & Hin & Hocc).
  cbn in Hin.
  destruct Hin as [E|[E|[]]]; injection E as <- <-;
    vm_compute in Hocc; discriminate Hocc.
Qed.

(** C6, amended: the bearer token and the workspace identifier are read from
    the environment once, at start; serving any sequence of calls leaves them
    and the client built from the token unchanged; every request sent has
    exactly the headers [Authorization: Bearer <token>] and
    [Content-Type: application/json].  The workspace identifier is not a
    header: [list_channels] and [get_users] send it as the [team_id] query
    parameter of their request, which is sent whenever the capped limit has a
    decimal text (for every limit above [- 10 ^ 4300]). *)
Theorem credential_use :
  forall network environ calls token team,
    dict_get environ (py "SLACK_BOT_TOKEN") = Some token ->
    dict_get environ (py "SLACK_TEAM_ID") = Some team ->
    truthy token = true -> truthy team = true ->
    final_globals (main network environ calls)
    = Some (Globals token team (SlackClient_init token))
    /\ (forall r,
           In r (requests (main network environ calls)) ->
           headers r
           = [ (py "Authorization", py "Bearer " ++ token);
               (py "Content-Type", py "application/json") ])
    /\ (forall st limit cursor,
           team_id (glob st) = team ->
           PyInt.fits (PyInt.min limit 200) = true ->
           (exists r,
               outbound (slack_list_channels network limit cursor) st
               = sent st ++ [r]
               /\ query r (py "team_id") = Some team)
           /\ (exists r,
                  outbound (slack_get_users network limit cursor) st
                  = sent st ++ [r]
                  /\ query r (py "team_id") = Some team)).
Proof.
  intros network environ calls token team Ht Hm Htt Htm.
  unfold main.
  rewrite (Startup.startup_configured environ Ht Hm Htt Htm).
  pose proof (serve_effect network calls
                (State (Globals token team (SlackClient_init token)) []))
    as [Hg Hs].
  destruct (serve network calls
              (State (Globals token team (SlackClient_init token)) []))
    as [rs st1].
  cbn [snd glob sent final_globals requests] in *.
  split; [now rewrite Hg|]. split.
  - intros r Hr. destruct (Hs r Hr) as [[]|Hh]. exact Hh.
  - intros st limit cursor Hteam Hl. split; eexists.
    + split; [apply list_channels_request; exact Hl|].
      unfold query. cbn [params].
      rewrite with_cursor_other by reflexivity. rewrite Hteam. reflexivity.
    + split; [apply get_users_request; exact Hl|].
      unfold query. cbn [params].
      rewrite with_cursor_other by reflexivity. rewrite Hteam. reflexivity.
Qed.

Lemma credential_use_witness :
  final_globals
    (main Sample.unreachable Sample.environ
       [InvokeGetUsers None None; InvokeGetUserProfile (Some (py "U1"))])
  = Some (Globals (py "xoxb-1") (py "T1") (SlackClient_init (py "xoxb-1")))
  /\ (forall r,
         In r (requests
                 (main Sample.unreachable Sample.environ
                    [InvokeGetUsers None None;
                     InvokeGetUserProfile (Some (py "U1"))])) ->
         headers r
         = [ (py "Authorization", py "Bearer " ++ py "xoxb-1");
             (py "Content-Type", py "application/json") ]).
Proof.
  destruct (@credential_use Sample.unreachable Sample.environ
              [InvokeGetUsers None None; InvokeGetUserProfile (Some (py "U1"))]
              (py "xoxb-1") (py "T1") eq_refl eq_refl eq_refl eq_refl)
    as (Hg & Hh & _).
  split; assumption.
Defined.

(** * Further properties of the tools *)

(** X1: a tool whose required arguments are all non-empty, and whose limit
    (if it has one) can be turned into text, sends exactly one request and
    returns the text of the reply to it: the serialized body when a response
    arrives and decodes, the error object when the call fails, when the
    response does not decode, or when the body cannot be serialized.  In
    these last cases the request is on record all the same: it had been sent.
    When the limit cannot be turned into text, nothing is sent and the tool
    returns the error of the conversion. *)
Theorem tool_run_by_reply :
  forall network c st,
    required_present c = true ->
    (limit_fits c = true ->
     exists r,
       run_tool network c st
       = (Ok (text_of_reply (network (sent st) r)),
          State (glob st) (sent st ++ [r])))
    /\ (limit_fits c = false ->
        run_tool network c st
        = (Ok (dumps (error_response PyInt.too_many_digits)), st)).
Proof.
  intros network c st H. split; intros Hl.
  - now apply run_by_reply.
  - now apply run_tool_limit.
Qed.

Lemma tool_run_by_reply_witness :
  exists r,
    run_tool Sample.unreachable
             (AddReaction (py "C123") (py "100.1") (py "eyes")) Sample.started
    = (Ok (text_of_reply (Sample.unreachable (sent Sample.started) r)),
       State (glob Sample.started) (sent Sample.started ++ [r])).
Proof.
  apply (proj1 (@tool_run_by_reply Sample.unreachable
                  (AddReaction (py "C123") (py "100.1") (py "eyes"))
                  Sample.started eq_refl)).
  reflexivity.
Defined.

(** X2: the request a tool sends, when it sends one, is fixed by its
    arguments and by the globals alone: it is the same whatever was sent
    before and whatever the network answers. *)
Theorem request_fixed_by_arguments :
  forall c g,
    required_present c = true ->
    limit_fits c = true ->
    exists r,
      forall network log,
        outbound (run_tool network c) (State g log) = log ++ [r].
Proof.
  intros c g H Hl.
  destruct c; simpl in H, Hl; nonempty_arguments H; eexists;
    intros network log; run_server; cbn;
    rewrite ?(PyIntFacts.str_fits _ Hl); cbn;
    any_reply network; any_dumps; reflexivity.
Qed.

Lemma request_fixed_by_arguments_witness :
  exists r,
    forall network log,
      outbound (run_tool network (GetThreadReplies (py "C123") (py "100.1")))
               (State (glob Sample.started) log)
      = log ++ [r].
Proof.
  apply (@request_fixed_by_arguments
           (GetThreadReplies (py "C123") (py "100.1")) (glob Sample.started));
    reflexivity.
Defined.

(** The tools that write to the workspace. *)
Definition is_write (c : tool_call) : bool :=
  match c with
  | PostMessage _ _ | ReplyToThread _ _ _ | AddReaction _ _ _ => true
  | _ => false
  end.

(** X3: whatever a tool sends goes to an address under
    [https://slack.com/api/], under the headers of the client; the three
    writing tools send a POST with a JSON body and no query parameters, the
    five reading tools a GET with query parameters and no body. *)
Theorem request_shape :
  forall network c st r,
    outbound (run_tool network c) st = sent st ++ [r] ->
    Startup.starts_with (py "https://slack.com/api/") (url r) = true
    /\ headers r = bot_headers (slack_client (glob st))
    /\ (if is_write c
        then method r = POST /\ params r = None /\ json_body r <> None
        else method r = GET /\ json_body r = None /\ params r <> None).
Proof.
  intros network c st r H.
  destruct c; revert H; run_server; any_arguments; cbn;
    any_str; any_reply network; any_dumps; intros H;
    try (exfalso; exact (@app_none_inv _ _ _ H));
    apply app_one_inv in H; subst r; cbn;
    repeat split; discriminate.
Qed.

Lemma request_shape_witness :
  Startup.starts_with (py "https://slack.com/api/")
    (py "https://slack.com/api/chat.postMessage") = true
  /\ bot_headers (slack_client (glob Sample.started))
     = bot_headers (slack_client (glob Sample.started))
  /\ POST = POST
  /\ @None (list (pystr * pystr)) = None
  /\ Some (JObj [ (py "channel", JStr (py "C123"));
                  (py "thread_ts", JStr (py "100.1"));
                  (py "text", JStr (py "hi")) ]) <> None.
Proof.
  apply (@request_shape Sample.unreachable
           (ReplyToThread (py "C123") (py "100.1") (py "hi"))
           Sample.started
           (Request POST (py "https://slack.com/api/chat.postMessage")
              (bot_headers (slack_client (glob Sample.started))) None
              (Some (JObj [ (py "channel", JStr (py "C123"));
                            (py "thread_ts", JStr (py "100.1"));
                            (py "text", JStr (py "hi")) ])))).
  reflexivity.
Defined.

(** X4: [list_channels] and [get_users] send a limit of 200 or less as it
    is, zero and negative numbers included, whenever it can be turned into
    text (it is above [- 10 ^ 4300]): the cap is the only adjustment, there
    is no lower bound. *)
Theorem listing_limit_below_cap :
  forall network st limit cursor,
    (limit <= 200)%Z ->
    PyInt.fits limit = true ->
    (exists r,
        outbound (slack_list_channels network limit cursor) st
        = sent st ++ [r]
        /\ query r (py "limit") = Some (PyInt.decimal limit))
    /\ (exists r,
           outbound (slack_get_users network limit cursor) st
           = sent st ++ [r]
           /\ query r (py "limit") = Some (PyInt.decimal limit)).
Proof.
  intros network st limit cursor H Hl.
  assert (Hm : PyInt.fits (PyInt.min limit 200) = true)
    by now rewrite PyIntFacts.min_le.
  split; eexists.
  - split; [apply list_channels_request; exact Hm|].
    unfold query. cbn [params]. rewrite with_cursor_other by reflexivity.
    rewrite PyIntFacts.min_le by assumption. reflexivity.
  - split; [apply get_users_request; exact Hm|].
    unfold query. cbn [params]. rewrite with_cursor_other by reflexivity.
    rewrite PyIntFacts.min_le by assumption. reflexivity.
Qed.

Lemma listing_limit_below_cap_witness :
  exists r,
    outbound (slack_get_users Sample.unreachable (-5) None) Sample.started
    = sent Sample.started ++ [r]
    /\ query r (py "limit") = Some (PyInt.decimal (-5)).
Proof.
  apply (proj2 (@listing_limit_below_cap Sample.unreachable Sample.started
                  (-5) None ltac:(discriminate) eq_refl)).
Defined.

(** Two calls of the same tool. *)
Definition same_tool (c1 c2 : tool_call) : bool :=
  match c1, c2 with
  | ListChannels _ _, ListChannels _ _ => true
  | PostMessage _ _, PostMessage _ _ => true
  | ReplyToThread _ _ _, ReplyToThread _ _ _ => true
  | AddReaction _ _ _, AddReaction _ _ _ => true
  | GetChannelHistory _ _, GetChannelHistory _ _ => true
  | GetThreadReplies _ _, GetThreadReplies _ _ => true
  | GetUsers _ _, GetUsers _ _ => true
  | GetUserProfile _, GetUserProfile _ => true
  | _, _ => false
  end.

(** X5: the local error of a tool does not tell which argument is empty, and
    depends on nothing else either: two calls of the same tool that each have
    an empty required argument return the same text, whatever the other
    arguments, the state and the network. *)
Theorem local_error_uniform :
  forall network1 network2 c1 c2 st1 st2,
    same_tool c1 c2 = true ->
    required_present c1 = false ->
    required_present c2 = false ->
    fst (run_tool network1 c1 st1) = fst (run_tool network2 c2 st2).
Proof.
  intros network1 network2 c1 c2 st1 st2 Hsame H1 H2.
  destruct (run_tool_missing network1 c1 st1 H1) as (_ & ->).
  destruct (run_tool_missing network2 c2 st2 H2) as (_ & ->).
  destruct c1, c2; try discriminate Hsame; reflexivity.
Qed.

Lemma local_error_uniform_witness :
  fst (run_tool Sample.unreachable
         (ReplyToThread [] (py "100.1") (py "hi")) Sample.started)
  = fst (run_tool (Sample.stub Sample.posted)
           (ReplyToThread (py "C123") (py "100.1") [])
           (State (glob Sample.started) [])).
Proof.
  apply (@local_error_uniform Sample.unreachable (Sample.stub Sample.posted)
           (ReplyToThread [] (py "100.1") (py "hi"))
           (ReplyToThread (py "C123") (py "100.1") []));
    reflexivity.
Defined.

(** ** The text a tool returns *)

(** The text for the outcome of a client operation is the serialization of
    some value. *)
Lemma text_of_is_dump r : exists v, text_of r = dumps v.
Proof.
  destruct r as [v|e]; [|now exists (error_response e)].
  unfold text_of, json_dumps. destruct (ints_fit v); eauto.
Qed.

(** Every tool run ends with the serialization of some value. *)
Lemma tool_output_is_dump network c st :
  exists v, fst (run_tool network c st) = Ok (dumps v).
Proof.
  destruct (required_present c) eqn:H.
  - rewrite run_tool_present by assumption. cbn [fst].
    destruct (text_of_is_dump (fst (client_operation network c st)))
      as (v & ->).
    now exists v.
  - destruct (run_tool_missing network c st H) as (_ & ->).
    eexists. reflexivity.
Qed.

(** A reply whose content a JSON decoder, or the text of an exception, can
    be: see [JsonFacts.wf]. *)
Definition reply_wf (rp : reply) : bool :=
  match rp with
  | Replied resp =>
      match body_json resp with
      | Ok v => JsonFacts.wf v
      | Raise e => JsonFacts.wf_str (exn_message e)
      end
  | Failed e => JsonFacts.wf_str (exn_message e)
  end.

Lemma wf_error_response e :
  JsonFacts.wf_str (exn_message e) = true ->
  JsonFacts.wf (error_response e) = true.
Proof.
  intros H. unfold error_response, str_exn.
  cbn [JsonFacts.wf List.map fst snd forallb]. rewrite H. reflexivity.
Qed.

(** An error object parses back. *)
Lemma error_response_parses e :
  JsonFacts.wf_str (exn_message e) = true ->
  loads (dumps (error_response e)) = Some (error_response e).
Proof.
  intros H. apply JsonFacts.loads_dumps.
  - now apply wf_error_response.
  - reflexivity.
Qed.

(** So does the text for the outcome of a client operation that comes from
    a reply as [reply_wf] has it. *)
Lemma text_of_parses r :
  match r with
  | Ok v => JsonFacts.wf v
  | Raise e => JsonFacts.wf_str (exn_message e)
  end = true ->
  exists v, text_of r = dumps v /\ loads (dumps v) = Some v.
Proof.
  destruct r as [v|e]; intros H.
  - unfold text_of, json_dumps. destruct (ints_fit v) eqn:E.
    + exists v. split; [reflexivity|now apply JsonFacts.loads_dumps].
    + eexists. split; [reflexivity|].
      apply error_response_parses. reflexivity.
  - eexists. split; [reflexivity|]. now apply error_response_parses.
Qed.

(** X6: what a tool returns is always a JSON text: it parses, and parses to
    the value that was serialized (the decoded body, or the error object),
    whether the call went through, failed on the network, or was refused for
    an empty argument. *)
Theorem tool_output_parses :
  forall network c st,
    (forall log r, reply_wf (network log r) = true) ->
    exists v,
      fst (run_tool network c st) = Ok (dumps v)
      /\ loads (dumps v) = Some v.
Proof.
  intros network c st Hnet.
  destruct (required_present c) eqn:H; [destruct (limit_fits c) eqn:Hl|].
  - destruct (@run_by_reply network c st H Hl) as (r & ->).
    cbn [fst]. unfold text_of_reply.
    specialize (Hnet (sent st) r). unfold reply_wf in Hnet.
    destruct (network (sent st) r) as [[body]|e]; cbn [body_json] in *.
    + destruct (text_of_parses body Hnet) as (v & -> & Hv). eauto.
    + eexists. split; [reflexivity|]. now apply error_response_parses.
  - rewrite (@run_tool_limit network c st H Hl). cbn [fst].
    eexists. split; [reflexivity|]. apply error_response_parses.
    reflexivity.
  - destruct (run_tool_missing network c st H) as (_ & ->). cbn [fst].
    eexists. split; [reflexivity|].
    apply JsonFacts.loads_dumps; destruct c; reflexivity.
Qed.

Lemma tool_output_parses_witness :
  exists v,
    fst (run_tool Sample.unreachable (PostMessage (py "C123") (py "hello"))
                  Sample.started)
    = Ok (dumps v)
    /\ loads (dumps v) = Some v.
Proof.
  apply (@tool_output_parses Sample.unreachable
           (PostMessage (py "C123") (py "hello")) Sample.started).
  intros log r. reflexivity.
Defined.

(** X8: a response whose body is [{"error": msg}] and a call that fails with
    an exception whose text is [msg] give the same result: the text of a tool
    does not tell a failure reported by the remote service in that form from
    a failure to reach it, and carries nothing of the class of the
    exception. *)
Theorem remote_error_looks_local :
  forall c st cls msg,
    required_present c = true ->
    fst (run_tool (Sample.stub (JObj [(py "error", JStr msg)])) c st)
    = fst (run_tool (fun _ _ => Failed (Exn cls msg)) c st).
Proof.
  intros c st cls msg H. destruct (limit_fits c) eqn:Hl.
  - destruct (@run_by_reply
                (Sample.stub (JObj [(py "error", JStr msg)])) c st H Hl)
      as (r1 & ->).
    destruct (@run_by_reply (fun _ _ => Failed (Exn cls msg)) c st H Hl)
      as (r2 & ->).
    reflexivity.
  - now rewrite !run_tool_limit.
Qed.

Lemma remote_error_looks_local_witness :
  fst (run_tool (Sample.stub (JObj [(py "error", JStr (py "not_in_channel"))]))
         (PostMessage (py "C123") (py "hello")) Sample.started)
  = fst (run_tool
           (fun _ _ => Failed (Exn (py "ReadTimeout") (py "not_in_channel")))
           (PostMessage (py "C123") (py "hello")) Sample.started).
Proof.
  apply (@remote_error_looks_local
           (PostMessage (py "C123") (py "hello")) Sample.started
           (py "ReadTimeout") (py "not_in_channel")).
  reflexivity.
Defined.

(** *** Printable ASCII *)

Module Ascii7.

Open Scope N_scope.

(** A character from the space to the tilde. *)
Definition printable (c : N) : bool := (32 <=? c) && (c <=? 126).

Lemma json_induction (P : json -> Prop) :
  P JNull ->
  (forall b, P (JBool b)) ->
  (forall z, P (JInt z)) ->
  (forall s, P (JStr s)) ->
  (forall items, Forall P items -> P (JArr items)) ->
  (forall members, Forall (fun kv => P (snd kv)) members -> P (JObj members)) ->
  forall v, P v.
Proof.
  intros HNull HBool HInt HStr HArr HObj.
  fix IH 1. intros [|b|z|s|items|members].
  - exact HNull.
  - apply HBool.
  - apply HInt.
  - apply HStr.
  - apply HArr. induction items as [|x xs IHxs]; constructor.
    + apply IH.
    + exact IHxs.
  - apply HObj. induction members as [|[k x] ms IHms]; constructor.
    + apply IH.
    + exact IHms.
Qed.

Lemma printable_hex_digit n : n < 16 -> printable (hex_digit n) = true.
Proof.
  intros H. destruct n as [|p]; [reflexivity|].
  do 5 (try destruct p as [p|p|]); try reflexivity; exfalso; lia.
Qed.

Lemma u_escape_eq n :
  u_escape n
  = [ 92; 117; hex_digit (N.shiftr n 12 mod 16);
      hex_digit (N.shiftr n 8 mod 16); hex_digit (N.shiftr n 4 mod 16);
      hex_digit (n mod 16) ].
Proof. reflexivity. Qed.

Lemma printable_u_escape n : forallb printable (u_escape n) = true.
Proof.
  rewrite u_escape_eq. cbn [forallb].
  rewrite !printable_hex_digit by (apply N.mod_lt; discriminate).
  reflexivity.
Qed.

Lemma printable_escape_char c : forallb printable (escape_char c) = true.
Proof.
  unfold escape_char.
  repeat match goal with
         | |- context [if ?x =? ?k then _ else _] =>
             destruct (N.eqb_spec x k); [reflexivity|]
         end.
  destruct (32 <=? c) eqn:E1; destruct (c <=? 126) eqn:E2;
    cbv beta iota delta [andb];
    try (destruct (c <? 0x10000);
         [apply printable_u_escape
         |cbv zeta; rewrite forallb_app, !printable_u_escape; reflexivity]).
  cbn [forallb]. unfold printable. now rewrite E1, E2.
Qed.

Lemma printable_encode_string s :
  forallb printable (encode_string s) = true.
Proof.
  unfold encode_string, quoted, dquote. rewrite !forallb_app.
  replace (forallb printable (flat_map escape_char s)) with true.
  - reflexivity.
  - symmetry. induction s as [|c s IH]; [reflexivity|].
    cbn [flat_map]. now rewrite forallb_app, printable_escape_char, IH.
Qed.

Lemma printable_uint_chars d :
  forallb printable (PyInt.uint_chars d) = true.
Proof.
  induction d; cbn [PyInt.uint_chars forallb]; try rewrite IHd; reflexivity.
Qed.

Lemma printable_decimal z : forallb printable (PyInt.decimal z) = true.
Proof.
  unfold PyInt.decimal. destruct (Z.to_int z); cbn [forallb];
    now rewrite printable_uint_chars.
Qed.

Lemma printable_join parts :
  Forall (fun p => forallb printable p = true) parts ->
  forallb printable (join JsonFacts.sep parts) = true.
Proof.
  induction 1 as [|p ps Hp Hps IH]; [reflexivity|].
  destruct ps as [|q ps]; [exact Hp|].
  rewrite JsonFacts.join_cons2.
  change (p ++ 44 :: 32 :: join JsonFacts.sep (q :: ps))
    with (p ++ [44; 32] ++ join JsonFacts.sep (q :: ps)).
  rewrite !forallb_app, Hp, IH. reflexivity.
Qed.

(** [json.dumps] writes printable ASCII only, whatever the value holds. *)
Lemma printable_dumps v : forallb printable (dumps v) = true.
Proof.
  induction v as [|b|z|s|items IH|members IH] using json_induction.
  - reflexivity.
  - destruct b; reflexivity.
  - apply printable_decimal.
  - apply printable_encode_string.
  - rewrite JsonFacts.dumps_arr. cbn [forallb].
    rewrite forallb_app, printable_join; [reflexivity|].
    induction IH; constructor; assumption.
  - rewrite JsonFacts.dumps_obj. cbn [forallb].
    rewrite forallb_app, printable_join; [reflexivity|].
    induction IH as [|[k x] ms Hx Hms IHms]; constructor; [|assumption].
    unfold JsonFacts.member. cbn [fst snd] in *.
    now rewrite !forallb_app, printable_encode_string, Hx.
Qed.

End Ascii7.

(** X7: the text a tool returns holds printable ASCII characters only (from
    the space to the tilde), whatever characters the response body or the
    message of an exception holds: everything else is written as an
    escape. *)
Theorem tool_output_printable :
  forall network c st,
    exists text,
      fst (run_tool network c st) = Ok text
      /\ forallb Ascii7.printable text = true.
Proof.
  intros network c st.
  destruct (tool_output_is_dump network c st) as (v & ->).
  exists (dumps v). split; [reflexivity|apply Ascii7.printable_dumps].
Qed.

(** ** Start-up *)

(** X9: the start-up check exits exactly when one of the two environment
    variables is missing or empty, always with status 1 and the one
    diagnostic line; otherwise the process starts with the token and the
    workspace identifier the environment holds, and the headers of the client
    are built from that token. *)
Theorem startup_exits_iff :
  forall environ,
    (truthy_opt (dict_get environ (py "SLACK_BOT_TOKEN")) = false
     \/ truthy_opt (dict_get environ (py "SLACK_TEAM_ID")) = false
     <-> startup environ = Exited [Startup.complaint] 1)
    /\ (forall err g,
           startup environ = Started err g ->
           dict_get environ (py "SLACK_BOT_TOKEN") = Some (bot_token g)
           /\ dict_get environ (py "SLACK_TEAM_ID") = Some (team_id g)
           /\ truthy (bot_token g) = true
           /\ truthy (team_id g) = true
           /\ slack_client g = SlackClient_init (bot_token g)
           /\ err = [py "Starting Slack MCP Server..."]).
Proof.
  intros environ. split; [split|].
  - apply Startup.startup_missing.
  - unfold startup.
    destruct (dict_get environ (py "SLACK_BOT_TOKEN")) as [token|];
      destruct (dict_get environ (py "SLACK_TEAM_ID")) as [team|];
      cbn [truthy_opt]; auto.
    destruct (truthy token); destruct (truthy team); cbn [negb orb]; auto.
    discriminate.
  - intros err g. unfold startup.
    destruct (dict_get environ (py "SLACK_BOT_TOKEN")) as [token|];
      destruct (dict_get environ (py "SLACK_TEAM_ID")) as [team|];
      try discriminate.
    destruct (truthy token) eqn:Ht; destruct (truthy team) eqn:Hm;
      cbn [negb orb]; try discriminate.
    intros H. injection H as <- <-. cbn [bot_token team_id slack_client].
    repeat split; assumption || reflexivity.
Qed.

Lemma startup_exits_iff_witness :
  startup [(py "SLACK_TEAM_ID", py "T1"); (py "SLACK_BOT_TOKEN", [])]
  = Exited [Startup.complaint] 1
  /\ slack_client (glob Sample.started) = SlackClient_init (py "xoxb-1").
Proof.
  split.
  - apply (proj1 (startup_exits_iff
                    [(py "SLACK_TEAM_ID", py "T1"); (py "SLACK_BOT_TOKEN", [])])).
    left. reflexivity.
  - destruct (proj2 (startup_exits_iff Sample.environ)
                [py "Starting Slack MCP Server..."] (glob Sample.started)
                eq_refl)
      as (_ & _ & _ & _ & H & _).
    exact H.
Defined.

(** ** Requests on the wire *)

(** X10: passing a cursor that is not empty changes nothing in the request of
    [list_channels] or [get_users] but for one parameter, [cursor], added
    after the others; this for every limit whose capped value can be turned
    into text, so that a request is sent. *)
Theorem cursor_only_extends :
  forall network st limit c,
    truthy c = true ->
    PyInt.fits (PyInt.min limit 200) = true ->
    (exists u h ps,
        outbound (slack_list_channels network limit None) st
        = sent st ++ [Request GET u h (Some ps) None]
        /\ outbound (slack_list_channels network limit (Some c)) st
           = sent st ++ [Request GET u h (Some (ps ++ [(py "cursor", c)])) None])
    /\ (exists u h ps,
           outbound (slack_get_users network limit None) st
           = sent st ++ [Request GET u h (Some ps) None]
           /\ outbound (slack_get_users network limit (Some c)) st
              = sent st
                ++ [Request GET u h (Some (ps ++ [(py "cursor", c)])) None]).
Proof.
  intros network st limit c H Hl. split; do 3 eexists.
  - rewrite !list_channels_request by exact Hl.
    unfold with_cursor. rewrite H. split; reflexivity.
  - rewrite !get_users_request by exact Hl.
    unfold with_cursor. rewrite H. split; reflexivity.
Qed.

Lemma cursor_only_extends_witness :
  exists u h ps,
    outbound (slack_get_users Sample.unreachable 50 None) Sample.started
    = sent Sample.started ++ [Request GET u h (Some ps) None]
    /\ outbound (slack_get_users Sample.unreachable 50 (Some (py "abc")))
                Sample.started
       = sent Sample.started
         ++ [Request GET u h (Some (ps ++ [(py "cursor", py "abc")])) None].
Proof.
  apply (proj2 (@cursor_only_extends Sample.unreachable Sample.started 50
                  (py "abc") eq_refl eq_refl)).
Defined.

(** X11: the arguments of a call reach the request as they are, under the
    names of the remote interface: [post_message] and [reply_to_thread] post
    to the same address, a reply being a message with a [thread_ts];
    [add_reaction] sends the reaction as [name]; [get_thread_replies] sends
    the thread as [ts]; [get_user_profile] always asks for labels. *)
Theorem wire_contract :
  forall network st a b c,
    truthy a = true -> truthy b = true -> truthy c = true ->
    outbound (slack_post_message network a b) st
    = sent st
      ++ [ Request POST (py "https://slack.com/api/chat.postMessage")
             (bot_headers (slack_client (glob st))) None
             (Some (JObj [ (py "channel", JStr a); (py "text", JStr b) ])) ]
    /\ outbound (slack_reply_to_thread network a b c) st
       = sent st
         ++ [ Request POST (py "https://slack.com/api/chat.postMessage")
                (bot_headers (slack_client (glob st))) None
                (Some (JObj [ (py "channel", JStr a);
                              (py "thread_ts", JStr b);
                              (py "text", JStr c) ])) ]
    /\ outbound (slack_add_reaction network a b c) st
       = sent st
         ++ [ Request POST (py "https://slack.com/api/reactions.add")
                (bot_headers (slack_client (glob st))) None
                (Some (JObj [ (py "channel", JStr a);
                              (py "timestamp", JStr b);
                              (py "name", JStr c) ])) ]
    /\ outbound (slack_get_thread_replies network a b) st
       = sent st
         ++ [ Request GET (py "https://slack.com/api/conversations.replies")
                (bot_headers (slack_client (glob st)))
                (Some [ (py "channel", a); (py "ts", b) ]) None ]
    /\ outbound (slack_get_user_profile network a) st
       = sent st
         ++ [ Request GET (py "https://slack.com/api/users.profile.get")
                (bot_headers (slack_client (glob st)))
                (Some [ (py "user", a); (py "include_labels", py "true") ])
                None ].
Proof.
  intros network st a b c Ha Hb Hc.
  destruct a; [discriminate Ha|]. destruct b; [discriminate Hb|].
  destruct c; [discriminate Hc|].
  repeat split; run_server; cbn; any_reply network; any_dumps; reflexivity.
Qed.

Lemma wire_contract_witness :
  outbound (slack_add_reaction Sample.unreachable
              (py "C123") (py "100.1") (py "eyes")) Sample.started
  = sent Sample.started
    ++ [ Request POST (py "https://slack.com/api/reactions.add")
           (bot_headers (slack_client (glob Sample.started))) None
           (Some (JObj [ (py "channel", JStr (py "C123"));
                         (py "timestamp", JStr (py "100.1"));
                         (py "name", JStr (py "eyes")) ])) ].
Proof.
  apply (@wire_contract Sample.unreachable Sample.started
           (py "C123") (py "100.1") (py "eyes") eq_refl eq_refl eq_refl).
Defined.

(** ** Calls and requests *)

Lemma serve_counts network calls st :
  List.length (fst (serve network calls st)) = List.length calls
  /\ (List.length (sent (snd (serve network calls st)))
      <= List.length (sent st) + List.length calls)%nat.
Proof.
  revert st. induction calls as [|i calls IH]; intros st; cbn [serve].
  - cbn. lia.
  - destruct (invoke_effect network i st) as [_ Hs].
    destruct (invoke network i st) as [x st1]. cbn [snd] in Hs.
    specialize (IH st1). destruct (serve network calls st1) as [rs st2].
    cbn [fst snd List.length] in *. destruct IH as [IH1 IH2].
    split; [lia|].
    destruct Hs as [Hs|(r & Hs & _)]; rewrite Hs in IH2;
      [|rewrite List.length_app in IH2; cbn [List.length] in IH2]; lia.
Qed.

(** X12: there is no retry and no follow-up request: a run of the process
    never sends more requests than the calls it was given, and once started
    it gives one result per call, in whatever way the earlier calls ended. *)
Theorem no_more_requests_than_calls :
  forall network environ calls,
    (List.length (requests (main network environ calls))
     <= List.length calls)%nat
    /\ (forall err g,
           startup environ = Started err g ->
           List.length (results (main network environ calls))
           = List.length calls).
Proof.
  intros network environ calls. unfold main.
  destruct (startup environ) as [err status|err g].
  - split; [cbn; lia|discriminate].
  - pose proof (serve_counts network calls (State g [])) as [H1 H2].
    destruct (serve network calls (State g [])) as [rs st].
    cbn [fst snd sent requests results List.length] in *.
    split; [lia|]. intros _ _ _. exact H1.
Qed.

Lemma no_more_requests_than_calls_witness :
  List.length
    (results
       (main Sample.unreachable Sample.environ
          [ InvokeGetUsers None None;
            InvokePostMessage (Some (py "C123")) None;
            InvokeGetUserProfile (Some []) ]))
  = 3%nat.
Proof.
  apply (proj2 (no_more_requests_than_calls Sample.unreachable Sample.environ
                  [ InvokeGetUsers None None;
                    InvokePostMessage (Some (py "C123")) None;
                    InvokeGetUserProfile (Some []) ])
               [py "Starting Slack MCP Server..."]
               (glob Sample.started)).
  reflexivity.
Defined.

(** X13: whenever [list_channels] sends its request (the capped limit can be
    turned into text), it asks for the same kind of channels: public ones
    ([types=public_channel]) that are not archived ([exclude_archived=true]),
    in the workspace of the process; no argument of the tool changes that. *)
Theorem listing_filters_fixed :
  forall network st limit cursor,
    PyInt.fits (PyInt.min limit 200) = true ->
    exists r,
      outbound (slack_list_channels network limit cursor) st = sent st ++ [r]
      /\ query r (py "types") = Some (py "public_channel")
      /\ query r (py "exclude_archived") = Some (py "true")
      /\ query r (py "team_id") = Some (team_id (glob st)).
Proof.
  intros network st limit cursor Hl. eexists.
  split; [apply list_channels_request; exact Hl|].
  unfold query. cbn [params].
  rewrite !with_cursor_other by reflexivity.
  repeat split; reflexivity.
Qed.

Lemma listing_filters_fixed_witness :
  exists r,
    outbound (slack_list_channels Sample.unreachable 0 (Some (py "abc")))
             Sample.started
    = sent Sample.started ++ [r]
    /\ query r (py "types") = Some (py "public_channel")
    /\ query r (py "exclude_archived") = Some (py "true")
    /\ query r (py "team_id") = Some (team_id (glob Sample.started)).
Proof.
  apply (@listing_filters_fixed Sample.unreachable Sample.started 0
           (Some (py "abc")) eq_refl).
Defined.
